(** * Interactive pricing engine: a shallow embedding and its properties

    The development follows [src/interactive_pricing_engine.py]:
    pricing rules, the two-phase [PricingEngine.process_product], the
    streaming pass ([load_sales_data], [process_products], [write_output])
    and the change detector ([calculate_file_hash],
    [CSVChangeHandler.process_files]).

    Python values are modelled as follows.
    - [float] is IEEE 754 binary64, through the executable specification
      [SpecFloat] of the standard library ([prec = 53], [emax = 1024]).
    - [int] is [Z].
    - a [dict] with string keys is a [gmap string _].
    - an exception is a value of [exn]; a computation that may raise
      is a value of [res _]. *)

From Stdlib Require Import ZArith String Ascii SpecFloat.
From stdpp Require Import base option list sorting strings gmap pretty.

Local Open Scope Z_scope.

(** ** Exceptions *)

Inductive exn :=
| KeyError (key : string)
| ValueError (builtin literal : string)
| TypeError (builtin : string)
| OverflowError (builtin : string)
| FileNotFoundError (path : string).

Inductive res (A : Type) :=
| Ok (a : A)
| Raise (e : exn).
Arguments Ok {A} a.
Arguments Raise {A} e.

#[global] Instance res_ret : MRet res := fun A a => Ok a.
#[global] Instance res_bind : MBind res := fun A B f m =>
  match m with
  | Ok a => f a
  | Raise e => Raise e
  end.

Definition is_Ok {A} (m : res A) : Prop := exists a, m = Ok a.
Definition is_Raise {A} (m : res A) : Prop := exists e, m = Raise e.

(** ** Floating-point numbers (binary64) *)

Module Float.

Definition prec : Z := 53.
Definition emax : Z := 1024.

Definition is_nan (x : spec_float) : bool :=
  match x with
  | S754_nan => true
  | _ => false
  end.

(** [x * y] *)
Definition mul (x y : spec_float) : spec_float := SFmul prec emax x y.

(** [x < y], [x <= y], [x > y], [x >= y]; all false on a NaN. *)
Definition ltb (x y : spec_float) : bool := SFltb x y.
Definition leb (x y : spec_float) : bool := SFleb x y.
Definition gtb (x y : spec_float) : bool := SFltb y x.
Definition geb (x y : spec_float) : bool := SFleb y x.

(** The builtin [max(a, b)]: the first argument is kept unless the
    second compares greater. *)
Definition max (a b : spec_float) : spec_float :=
  if gtb b a then b else a.

(** The binary64 number nearest to [n / d] (ties to even), with sign
    [s]. *)
Definition of_ratio (s : bool) (n : N) (d : positive) : spec_float :=
  match n with
  | N0 => S754_zero s
  | Npos p => SFdiv prec emax (S754_finite s p 0) (S754_finite false d 0)
  end.

(** The binary64 number nearest to [m * 10 ^ e]. *)
Definition of_decimal (s : bool) (m : N) (e : Z) : spec_float :=
  match e with
  | Zneg p => of_ratio s m (10 ^ p)%positive
  | _ => of_ratio s (m * Z.to_N (10 ^ e))%N 1
  end.

(** [a / b] rounded to the nearest integer, ties to even
    ([0 <= a], [0 < b]). *)
Definition div_half_even (a b : Z) : Z :=
  let q := a / b in
  match (2 * (a mod b)) ?= b with
  | Lt => q
  | Gt => q + 1
  | Eq => if Z.even q then q else q + 1
  end.

(** The integer nearest to [m * 2 ^ e * 10 ^ ndigits], ties to even:
    the digits of the correctly rounded decimal expansion with
    [ndigits] places. *)
Definition scaled (ndigits : N) (m : positive) (e : Z) : Z :=
  match e with
  | Zneg p => div_half_even (Zpos m * 10 ^ Z.of_N ndigits) (2 ^ Zpos p)
  | _ => Zpos m * 2 ^ e * 10 ^ Z.of_N ndigits
  end.

(** The builtin [round(x, ndigits)] on a float, for [0 <= ndigits]:
    the decimal expansion of [x] is rounded to [ndigits] places (ties
    to even) and converted back to the nearest float. NaN, infinities
    and zeros round to themselves; beyond 323 places every float does. *)
Definition round (x : spec_float) (ndigits : N) : spec_float :=
  match x with
  | S754_finite s m e =>
      if (323 <? ndigits)%N then x
      else of_ratio s (Z.to_N (scaled ndigits m e)) (Z.to_pos (10 ^ Z.of_N ndigits))
  | _ => x
  end.

(** The format specification [.2f]: fixed notation with two places,
    correctly rounded, ties to even. *)
Definition two_places (n : Z) : string :=
  let d := n mod 100 in
  pretty (n / 100) +:+ "." +:+ (if d <? 10 then "0" else "") +:+ pretty d.

Definition format_2f (x : spec_float) : string :=
  match x with
  | S754_nan => "nan"
  | S754_infinity s => (if s then "-" else "") +:+ "inf"
  | S754_zero s => (if s then "-" else "") +:+ "0.00"
  | S754_finite s m e => (if s then "-" else "") +:+ two_places (scaled 2 m e)
  end.

(** [float(n)] for an integer [n]; [None] when [n] is too large. *)
Definition of_int (n : Z) : option spec_float :=
  match of_ratio (n <? 0) (Z.abs_N n) 1 with
  | S754_infinity _ => None
  | x => Some x
  end.

(** Truncation toward zero of a finite float. *)
Definition trunc (s : bool) (m : positive) (e : Z) : Z :=
  let a := match e with
           | Zneg p => Zpos m / 2 ^ Zpos p
           | _ => Zpos m * 2 ^ e
           end in
  if s then - a else a.

End Float.

(** ** Text of numbers

    The grammars accepted by the builtins [int] and [float] on a string,
    for ASCII text: surrounding whitespace is ignored, a sign is
    optional, and single underscores may separate digits. *)

Module Literal.

Definition is_space (c : ascii) : bool :=
  let n := N_of_ascii c in
  ((9 <=? n) && (n <=? 13) || (n =? 32))%N.

Definition is_digit (c : ascii) : bool :=
  let n := N_of_ascii c in
  ((48 <=? n) && (n <=? 57))%N.

Definition digit_val (c : ascii) : N := (N_of_ascii c - 48)%N.

Fixpoint lstrip (l : list ascii) : list ascii :=
  match l with
  | c :: l' => if is_space c then lstrip l' else l
  | [] => []
  end.

Definition strip (l : list ascii) : list ascii :=
  rev (lstrip (rev (lstrip l))).

(** [(["_"] digit)*]: the rest of a digit part. [acc] is the number
    read so far and [cnt] the count of its digits. *)
Fixpoint digits_tail (acc cnt : N) (l : list ascii) : N * N * list ascii :=
  match l with
  | c :: l' =>
      if is_digit c then digits_tail (10 * acc + digit_val c)%N (cnt + 1)%N l'
      else if Ascii.eqb c "_" then
        match l' with
        | d :: l'' =>
            if is_digit d
            then digits_tail (10 * acc + digit_val d)%N (cnt + 1)%N l''
            else (acc, cnt, l)
        | [] => (acc, cnt, l)
        end
      else (acc, cnt, l)
  | [] => (acc, cnt, l)
  end.

(** [digit (["_"] digit)*] *)
Definition digitpart (acc cnt : N) (l : list ascii)
  : option (N * N * list ascii) :=
  match l with
  | d :: l' =>
      if is_digit d
      then Some (digits_tail (10 * acc + digit_val d)%N (cnt + 1)%N l')
      else None
  | [] => None
  end.

(** An optional sign; [true] is minus. *)
Definition sign (l : list ascii) : bool * list ascii :=
  match l with
  | "-"%char :: l' => (true, l')
  | "+"%char :: l' => (false, l')
  | _ => (false, l)
  end.

(** [int(s)] in base 10. *)
Definition parse_int (s : string) : option Z :=
  let '(neg, l) := sign (strip (list_ascii_of_string s)) in
  match digitpart 0 0 l with
  | Some (n, _, []) => Some (if neg then - Z.of_N n else Z.of_N n)
  | _ => None
  end.

(** [[digitpart] "." digitpart | digitpart ["."]]: the digits as one
    integer and the count of those after the point. *)
Definition number (l : list ascii) : option (N * N * list ascii) :=
  match l with
  | "."%char :: l' => digitpart 0 0 l'
  | _ =>
      match digitpart 0 0 l with
      | Some (m, _, "."%char :: rest) =>
          match digitpart m 0 rest with
          | Some r => Some r
          | None => Some (m, 0%N, rest)
          end
      | Some (m, _, rest) => Some (m, 0%N, rest)
      | None => None
      end
  end.

(** [("e" | "E") ["+" | "-"] digitpart], when the text goes on. *)
Definition exponent (l : list ascii) : option Z :=
  match l with
  | [] => Some 0
  | c :: l' =>
      if Ascii.eqb c "e" || Ascii.eqb c "E" then
        let '(neg, l'') := sign l' in
        match digitpart 0 0 l'' with
        | Some (n, _, []) => Some (if neg then - Z.of_N n else Z.of_N n)
        | _ => None
        end
      else None
  end.

Definition lower (c : ascii) : ascii :=
  let n := N_of_ascii c in
  if ((65 <=? n) && (n <=? 90))%N then ascii_of_N (n + 32) else c.

(** [float(s)] *)
Definition parse_float (s : string) : option spec_float :=
  let '(neg, l) := sign (strip (list_ascii_of_string s)) in
  let word := string_of_list_ascii (map lower l) in
  if String.eqb word "inf" || String.eqb word "infinity"
  then Some (S754_infinity neg)
  else if String.eqb word "nan" then Some S754_nan
  else
    match number l with
    | Some (m, k, rest) =>
        match exponent rest with
        | Some e => Some (Float.of_decimal neg m (e - Z.of_N k))
        | None => None
        end
    | None => None
    end.

End Literal.

(** ** Values and dictionaries *)

(** The values held by the dictionaries of the program: text read from
    a table, [None] for a cell a short row lacks, the integer default
    [0] and the prices computed by the engine. *)
Inductive value :=
| VNone
| VStr (s : string)
| VInt (n : Z)
| VFloat (x : spec_float).

(** [d[key]] *)
Definition getitem {A} (d : gmap string A) (key : string) : res A :=
  match d !! key with
  | Some v => Ok v
  | None => Raise (KeyError key)
  end.

(** [d.get(key, dflt)] *)
Definition get {A} (d : gmap string A) (key : string) (dflt : A) : A :=
  default dflt (d !! key).

(** [int(v)] *)
Definition py_int (v : value) : res Z :=
  match v with
  | VStr s =>
      match Literal.parse_int s with
      | Some n => Ok n
      | None => Raise (ValueError "int" s)
      end
  | VInt n => Ok n
  | VFloat (S754_zero _) => Ok 0
  | VFloat (S754_finite s m e) => Ok (Float.trunc s m e)
  | VFloat S754_nan => Raise (ValueError "int" "nan")
  | VFloat (S754_infinity _) => Raise (OverflowError "int")
  | VNone => Raise (TypeError "int")
  end.

(** [float(v)] *)
Definition py_float (v : value) : res spec_float :=
  match v with
  | VStr s =>
      match Literal.parse_float s with
      | Some x => Ok x
      | None => Raise (ValueError "float" s)
      end
  | VInt n =>
      match Float.of_int n with
      | Some x => Ok x
      | None => Raise (OverflowError "float")
      end
  | VFloat x => Ok x
  | VNone => Raise (TypeError "float")
  end.

(** [round(v, 2)] *)
Definition py_round2 (v : value) : res value :=
  match v with
  | VFloat x => Ok (VFloat (Float.round x 2))
  | VInt n => Ok (VInt n)
  | VStr _ | VNone => Raise (TypeError "round")
  end.

(** The float literals of the program. *)
Definition lit_1_15 : spec_float := Float.of_decimal false 115 (-2).
Definition lit_0_7 : spec_float := Float.of_decimal false 7 (-1).
Definition lit_0_9 : spec_float := Float.of_decimal false 9 (-1).
Definition lit_1_2 : spec_float := Float.of_decimal false 12 (-1).

(** ** Pricing rules *)

(** [product['current_price'] * factor], the transform of the three
    tier rules. *)
Definition scale_current_price (factor : spec_float)
    (product : gmap string value) : res spec_float :=
  v ← getitem product "current_price";
  current_price ← py_float v;
  Ok (Float.mul current_price factor).

(** [int(sales_data.get('quantity_sold', 0))] *)
Definition quantity_sold (sales_data : gmap string value) : res Z :=
  py_int (get sales_data "quantity_sold" (VInt 0)).

(** [int(product['stock'])] *)
Definition stock (product : gmap string value) : res Z :=
  v ← getitem product "stock"; py_int v.

(** Rule 1: increase price by 15% if stock < 20 and quantity_sold > 30. *)
Module LowStockHighDemandRule.
Definition should_apply (product sales_data : gmap string value) : res bool :=
  s ← stock product;
  if s <? 20 then q ← quantity_sold sales_data; Ok (q >? 30) else Ok false.
Definition apply (product sales_data : gmap string value) : res spec_float :=
  scale_current_price lit_1_15 product.
End LowStockHighDemandRule.

(** Rule 2: decrease price by 30% if stock > 200 and quantity_sold == 0. *)
Module DeadStockRule.
Definition should_apply (product sales_data : gmap string value) : res bool :=
  s ← stock product;
  if s >? 200 then q ← quantity_sold sales_data; Ok (q =? 0) else Ok false.
Definition apply (product sales_data : gmap string value) : res spec_float :=
  scale_current_price lit_0_7 product.
End DeadStockRule.

(** Rule 3: decrease price by 10% if stock > 100 and quantity_sold < 20. *)
Module OverstockedInventoryRule.
Definition should_apply (product sales_data : gmap string value) : res bool :=
  s ← stock product;
  if s >? 100 then q ← quantity_sold sales_data; Ok (q <? 20) else Ok false.
Definition apply (product sales_data : gmap string value) : res spec_float :=
  scale_current_price lit_0_9 product.
End OverstockedInventoryRule.

(** Rule 4: ensure price is at least 20% above cost_price. The default
    of [product.get('new_price', ...)] is evaluated before the call, so
    [product['current_price']] is read in every case. *)
Module MinimumProfitRule.
Definition should_apply (product sales_data : gmap string value) : res bool :=
  Ok true.
Definition apply (product sales_data : gmap string value) : res spec_float :=
  c ← getitem product "cost_price";
  cost_price ← py_float c;
  let minimum_price := Float.mul cost_price lit_1_2 in
  dflt ← getitem product "current_price";
  current_new_price ← py_float (get product "new_price" dflt);
  Ok (Float.max current_new_price minimum_price).
End MinimumProfitRule.

(** The rule classes, and a rule object: its class and its priority
    (lower number means higher priority). *)
Inductive rule_class :=
| LowStockHighDemand
| DeadStock
| OverstockedInventory
| MinimumProfit.

#[global] Instance rule_class_eq_dec : EqDecision rule_class.
Proof. solve_decision. Defined.

Record PricingRule := { class_of : rule_class; priority : Z }.

Definition should_apply (rule : PricingRule)
    (product sales_data : gmap string value) : res bool :=
  match class_of rule with
  | LowStockHighDemand => LowStockHighDemandRule.should_apply product sales_data
  | DeadStock => DeadStockRule.should_apply product sales_data
  | OverstockedInventory => OverstockedInventoryRule.should_apply product sales_data
  | MinimumProfit => MinimumProfitRule.should_apply product sales_data
  end.

Definition apply (rule : PricingRule)
    (product sales_data : gmap string value) : res spec_float :=
  match class_of rule with
  | LowStockHighDemand => LowStockHighDemandRule.apply product sales_data
  | DeadStock => DeadStockRule.apply product sales_data
  | OverstockedInventory => OverstockedInventoryRule.apply product sales_data
  | MinimumProfit => MinimumProfitRule.apply product sales_data
  end.

(** [rule < other] *)
Definition rule_lt (rule other : PricingRule) : bool :=
  priority rule <? priority other.

(** [isinstance(rule, MinimumProfitRule)] *)
Definition is_minimum_profit (rule : PricingRule) : bool :=
  bool_decide (class_of rule = MinimumProfit).

(** ** The pricing engine *)

(** [list.sort()] with [rule_lt] as the order: a stable sort. A rule
    is placed before the first rule of the sorted tail that is not less
    than it. *)
Fixpoint sort_insert (rule : PricingRule) (l : list PricingRule)
  : list PricingRule :=
  match l with
  | [] => [rule]
  | other :: l' =>
      if rule_lt other rule then other :: sort_insert rule l'
      else rule :: other :: l'
  end.

Fixpoint sort (l : list PricingRule) : list PricingRule :=
  match l with
  | [] => []
  | rule :: l' => sort_insert rule (sort l')
  end.

Record PricingEngine := { rules : list PricingRule }.

(** [PricingEngine()] *)
Definition new_engine : PricingEngine := {| rules := [] |}.

Definition add_rule (self : PricingEngine) (rule : PricingRule) : PricingEngine :=
  {| rules := sort (rules self ++ [rule]) |}.

Definition remove_rule (self : PricingEngine) (cls : rule_class) : PricingEngine :=
  {| rules := filter (fun rule => class_of rule ≠ cls) (rules self) |}.

(** The engine states the program can reach. *)
Inductive reachable : PricingEngine -> Prop :=
| reachable_new : reachable new_engine
| reachable_add self rule : reachable self -> reachable (add_rule self rule)
| reachable_remove self cls : reachable self -> reachable (remove_rule self cls).

(** The scan of [process_product]: the first rule, the minimum profit
    rule apart, whose [should_apply] holds sets [result['new_price']]
    and ends the scan. The flag is [applied_exclusive_rule]. *)
Fixpoint scan (rs : list PricingRule) (product sales_data result : gmap string value)
  : res (gmap string value * bool) :=
  match rs with
  | [] => Ok (result, false)
  | rule :: rs' =>
      if is_minimum_profit rule then scan rs' product sales_data result
      else
        b ← should_apply rule product sales_data;
        if b : bool then
          new_price ← apply rule product sales_data;
          Ok (<["new_price" := VFloat new_price]> result, true)
        else scan rs' product sales_data result
  end.

(** Phase 1, tier selection: from [result = product.copy()] to the
    fallback on the current price. *)
Definition phase1 (self : PricingEngine) (product sales_data : gmap string value)
  : res (gmap string value) :=
  v ← getitem product "current_price";
  old_price ← py_float v;
  let result := <["old_price" := VFloat old_price]> product in
  '(result, applied_exclusive_rule) ← scan (rules self) product sales_data result;
  if applied_exclusive_rule : bool then Ok result
  else
    v ← getitem product "current_price";
    current_price ← py_float v;
    Ok (<["new_price" := VFloat current_price]> result).

(** Phase 2, the floor: the first minimum profit rule, if any, is
    applied to the result of phase 1. *)
Definition phase2 (self : PricingEngine) (sales_data result : gmap string value)
  : res (gmap string value) :=
  match filter (fun r => is_minimum_profit r = true) (rules self) with
  | [] => Ok result
  | min_profit_rule :: _ =>
      new_price ← apply min_profit_rule result sales_data;
      Ok (<["new_price" := VFloat new_price]> result)
  end.

(** The last step: [result['new_price'] = round(result['new_price'], 2)]. *)
Definition round_step (result : gmap string value) : res (gmap string value) :=
  v ← getitem result "new_price";
  rounded ← py_round2 v;
  Ok (<["new_price" := rounded]> result).

Definition process_product (self : PricingEngine)
    (product sales_data : gmap string value) : res (gmap string value) :=
  result ← phase1 self product sales_data;
  result ← phase2 self sales_data result;
  round_step result.

(** The engine of [run_interactive_pricing_engine]. *)
Definition standard_engine : PricingEngine :=
  add_rule
    (add_rule
       (add_rule
          (add_rule new_engine {| class_of := LowStockHighDemand; priority := 1 |})
          {| class_of := DeadStock; priority := 2 |})
       {| class_of := OverstockedInventory; priority := 3 |})
    {| class_of := MinimumProfit; priority := 4 |}.

(** ** Rows of the tables *)

(** A row of [csv.DictReader]: each column name is mapped to the text
    of the cell, or to [None] when the row is too short to have it.
    Cells beyond the header, which the reader keeps under the key
    [None] and the program never reads, are left out. *)
Definition cell_value (c : option string) : value :=
  match c with
  | Some s => VStr s
  | None => VNone
  end.

Definition to_dict (row : gmap string (option string)) : gmap string value :=
  cell_value <$> row.

(** A generator, run to its end: the items it yields and the exception
    that stops it, if one does. *)
Definition generator (A : Type) : Type := (list A * option exn)%type.

(** The loop of [load_sales_data]: [sales_data[row['sku']] = row]. *)
Fixpoint index_rows (rows : list (gmap string (option string)))
    (sales_data : gmap (option string) (gmap string (option string)))
  : res (gmap (option string) (gmap string (option string))) :=
  match rows with
  | [] => Ok sales_data
  | row :: rows' =>
      sku ← getitem row "sku";
      index_rows rows' (<[sku := row]> sales_data)
  end.

(** [{'quantity_sold': '0'}] *)
Definition default_sales : gmap string (option string) :=
  {["quantity_sold" := Some "0"]}.

(** The body of the loop of [process_products]. *)
Definition process_row (pricing_engine : PricingEngine)
    (sales_data : gmap (option string) (gmap string (option string)))
    (product : gmap string (option string)) : res (gmap string value) :=
  sku ← getitem product "sku";
  let product_sales := default default_sales (sales_data !! sku) in
  process_product pricing_engine (to_dict product) (to_dict product_sales).

(** The loop of [process_products]: one result is yielded per row, up
    to the first row whose evaluation raises. *)
Fixpoint process_rows (pricing_engine : PricingEngine)
    (sales_data : gmap (option string) (gmap string (option string)))
    (rows : list (gmap string (option string))) : generator (gmap string value) :=
  match rows with
  | [] => ([], None)
  | product :: rows' =>
      match process_row pricing_engine sales_data product with
      | Raise e => ([], Some e)
      | Ok result =>
          let rest := process_rows pricing_engine sales_data rows' in
          (result :: rest.1, rest.2)
      end
  end.

(** [f"${v:.2f}"] *)
Definition format_price (v : value) : res string :=
  match v with
  | VFloat x => Ok ("$" +:+ Float.format_2f x)
  | VInt n =>
      match Float.of_int n with
      | Some x => Ok ("$" +:+ Float.format_2f x)
      | None => Raise (OverflowError "format")
      end
  | VStr _ => Raise (ValueError "format" ".2f")
  | VNone => Raise (TypeError "format")
  end.

(** The row written for one processed product. *)
Definition output_row (product : gmap string value) : res (gmap string value) :=
  sku ← getitem product "sku";
  v ← getitem product "old_price";
  old_price ← format_price v;
  v ← getitem product "new_price";
  new_price ← format_price v;
  Ok (<["sku" := sku]>
        (<["old_price" := VStr old_price]>
           (<["new_price" := VStr new_price]> ∅))).

(** The loop of [write_output] over the items a generator yields. *)
Fixpoint write_rows (products : list (gmap string value))
  : generator (gmap string value) :=
  match products with
  | [] => ([], None)
  | product :: products' =>
      match output_row product with
      | Raise e => ([], Some e)
      | Ok row =>
          let rest := write_rows products' in
          (row :: rest.1, rest.2)
      end
  end.

Definition fieldnames : list string := ["sku"; "old_price"; "new_price"].

(** ** Files, the pass and the change detector *)

(** The state of a change handler: its fields. *)
Record CSVChangeHandler := {
  products_file : string;
  sales_file : string;
  output_file : string;
  pricing_engine : PricingEngine;
  products_hash : string;
  sales_hash : string
}.

(** What one call of [process_files] reports: nothing when no file
    changed, the message of the [try] block, or the message of the
    [except] block. *)
Inductive outcome :=
| Unchanged
| Updated
| Failed (e : exn).

Section Pipeline.

(** The library functions the pass relies on: the MD5 digest of a
    text in hexadecimal, the rows [csv.DictReader] reads from the
    text of a table, and the text [csv.DictWriter] writes for a
    header and rows. *)
Variable md5_hexdigest : string -> string.
Variable DictReader : string -> list (gmap string (option string)).
Variable DictWriter : list string -> list (gmap string value) -> string.

(** [open(file_path, 'r')] followed by reading: the text of the file. *)
Definition open_read (fs : gmap string string) (file_path : string) : res string :=
  match fs !! file_path with
  | Some text => Ok text
  | None => Raise (FileNotFoundError file_path)
  end.

Definition load_sales_data (fs : gmap string string) (file_path : string)
  : res (gmap (option string) (gmap string (option string))) :=
  text ← open_read fs file_path;
  index_rows (DictReader text) ∅.

(** The generator [process_products], run on the files as they are
    when its first item is asked for. *)
Definition process_products (products_file sales_file : string)
    (pricing_engine : PricingEngine) (fs : gmap string string)
  : generator (gmap string value) :=
  match load_sales_data fs sales_file with
  | Raise e => ([], Some e)
  | Ok sales_data =>
      match open_read fs products_file with
      | Raise e => ([], Some e)
      | Ok text => process_rows pricing_engine sales_data (DictReader text)
      end
  end.

(** [write_output]: the output file is opened for writing, which
    empties it, before the generator starts; the rows written until
    the generator or the formatting of a row raises stay in the
    file. *)
Definition write_output
    (products : gmap string string -> generator (gmap string value))
    (output_file : string) (fs : gmap string string)
  : gmap string string * option exn :=
  let items := products (<[output_file := ""]> fs) in
  let written := write_rows items.1 in
  (<[output_file := DictWriter fieldnames written.1]> fs,
   match written.2 with
   | Some e => Some e
   | None => items.2
   end).

Definition calculate_file_hash (fs : gmap string string) (file_path : string)
  : string :=
  match fs !! file_path with
  | None => ""
  | Some buf => md5_hexdigest buf
  end.

Definition set_hashes (self : CSVChangeHandler) (products_hash sales_hash : string)
  : CSVChangeHandler :=
  {| products_file := products_file self;
     sales_file := sales_file self;
     output_file := output_file self;
     pricing_engine := pricing_engine self;
     products_hash := products_hash;
     sales_hash := sales_hash |}.

(** One pass: the body of the [try] block of [process_files]. *)
Definition run_pass (self : CSVChangeHandler) (fs : gmap string string)
  : gmap string string * option exn :=
  write_output
    (process_products (products_file self) (sales_file self) (pricing_engine self))
    (output_file self) fs.

Definition process_files (self : CSVChangeHandler) (fs : gmap string string)
  : CSVChangeHandler * gmap string string * outcome :=
  let new_products_hash := calculate_file_hash fs (products_file self) in
  let new_sales_hash := calculate_file_hash fs (sales_file self) in
  let products_changed := bool_decide (new_products_hash ≠ products_hash self) in
  let sales_changed := bool_decide (new_sales_hash ≠ sales_hash self) in
  let self :=
    set_hashes self
      (if products_changed then new_products_hash else products_hash self)
      (if sales_changed then new_sales_hash else sales_hash self) in
  let files_changed := products_changed || sales_changed in
  if files_changed then
    let pass := run_pass self fs in
    (self, pass.1,
     match pass.2 with
     | None => Updated
     | Some e => Failed e
     end)
  else (self, fs, Unchanged).

(** [CSVChangeHandler(products_file, sales_file, output_file,
    pricing_engine)] *)
Definition new_handler (products_file sales_file output_file : string)
    (pricing_engine : PricingEngine) (fs : gmap string string)
  : CSVChangeHandler * gmap string string * outcome :=
  process_files
    {| products_file := products_file;
       sales_file := sales_file;
       output_file := output_file;
       pricing_engine := pricing_engine;
       products_hash := calculate_file_hash fs products_file;
       sales_hash := calculate_file_hash fs sales_file |}
    fs.

End Pipeline.

(** ** Sample tables

    Plain stand-ins for the library functions, used to run the pass on
    sample tables: comma-separated text without quoting, one row per
    line, and a small checksum in place of the digest. *)

Module Plain.

Definition newline : ascii := "010"%char.

(** The pieces of [l] between occurrences of [sep]; [cur] is the
    piece being read, reversed. *)
Fixpoint split_go (sep : ascii) (cur l : list ascii) : list string :=
  match l with
  | [] => [string_of_list_ascii (rev cur)]
  | c :: l' =>
      if Ascii.eqb c sep
      then string_of_list_ascii (rev cur) :: split_go sep [] l'
      else split_go sep (c :: cur) l'
  end.

Definition split (sep : ascii) (s : string) : list string :=
  split_go sep [] (list_ascii_of_string s).

(** A row: each name with its cell, [None] where the line is short. *)
Fixpoint row_of (names cells : list string) : gmap string (option string) :=
  match names, cells with
  | [], _ => ∅
  | name :: names', [] => <[name := None]> (row_of names' [])
  | name :: names', cell :: cells' => <[name := Some cell]> (row_of names' cells')
  end.

Definition reader (text : string) : list (gmap string (option string)) :=
  match filter (fun line => line ≠ "") (split newline text) with
  | [] => []
  | header :: lines => map (fun line => row_of (split "," header) (split "," line)) lines
  end.

Definition cell_text (v : option value) : string :=
  match v with
  | Some (VStr s) => s
  | _ => ""
  end.

Fixpoint join (sep : string) (l : list string) : string :=
  match l with
  | [] => ""
  | [s] => s
  | s :: l' => s +:+ sep +:+ join sep l'
  end.

Definition line (cells : list string) : string :=
  join "," cells +:+ String newline "".

Definition writer (names : list string) (rows : list (gmap string value)) : string :=
  line names
  +:+ String.concat "" (map (fun row => line (map (fun name => cell_text (row !! name)) names)) rows).

Definition digest (text : string) : string :=
  pretty (fold_left (fun h c => (h * 31 + N_of_ascii c) mod 4294967296)%N
                    (list_ascii_of_string text) 7%N).

End Plain.

Definition products_text : string :=
  Plain.line ["sku"; "current_price"; "cost_price"; "stock"]
  +:+ Plain.line ["A1"; "10.00"; "8.00"; "5"]
  +:+ Plain.line ["B2"; "10.00"; "9.00"; "300"]
  +:+ Plain.line ["C3"; "10.00"; "9.01"; "50"].

Definition sales_text : string :=
  Plain.line ["sku"; "quantity_sold"]
  +:+ Plain.line ["A1"; "40"].

(** A products table whose second row has no number for its stock. *)
Definition broken_products_text : string :=
  Plain.line ["sku"; "current_price"; "cost_price"; "stock"]
  +:+ Plain.line ["A1"; "10.00"; "8.00"; "5"]
  +:+ Plain.line ["B2"; "10.00"; "9.00"; "many"]
  +:+ Plain.line ["C3"; "10.00"; "9.01"; "50"].

Definition sample_files : gmap string string :=
  <["products.csv" := products_text]> (<["sales.csv" := sales_text]> ∅).

Definition broken_files : gmap string string :=
  <["products.csv" := broken_products_text]> (<["sales.csv" := sales_text]> ∅).

(** The handler of [run_interactive_pricing_engine] before its first
    check, with no digest stored yet. *)
Definition sample_handler : CSVChangeHandler :=
  {| products_file := "products.csv";
     sales_file := "sales.csv";
     output_file := "updated_prices.csv";
     pricing_engine := standard_engine;
     products_hash := "";
     sales_hash := "" |}.

(** Rows of a products table and of a sales table. *)
Definition product_row (sku current_price cost_price stock : string)
  : gmap string (option string) :=
  <["sku" := Some sku]>
    (<["current_price" := Some current_price]>
       (<["cost_price" := Some cost_price]>
          (<["stock" := Some stock]> ∅))).

Definition sales_row (sku quantity_sold : string) : gmap string (option string) :=
  <["sku" := Some sku]> (<["quantity_sold" := Some quantity_sold]> ∅).

(** ** Vocabulary of the statements *)

(** The scan passes over a rule when it is the minimum profit rule or
    its predicate is false; a rule fires when it is a tier rule and its
    predicate is true. *)
Definition passes_over (product sales_data : gmap string value)
    (rule : PricingRule) : Prop :=
  is_minimum_profit rule = true \/ should_apply rule product sales_data = Ok false.

Definition fires (product sales_data : gmap string value)
    (rule : PricingRule) : Prop :=
  is_minimum_profit rule = false /\ should_apply rule product sales_data = Ok true.

(** [float(product['current_price'])] *)
Definition current_price (product : gmap string value) : res spec_float :=
  v ← getitem product "current_price"; py_float v.

(** [float(product['cost_price'])] *)
Definition cost_price (product : gmap string value) : res spec_float :=
  v ← getitem product "cost_price"; py_float v.

(** The minimum profit rule is installed. *)
Definition margin_installed (self : PricingEngine) : Prop :=
  exists rule, rule ∈ rules self /\ is_minimum_profit rule = true.

(** The rules are in ascending order of priority. *)
Definition ascending (l : list PricingRule) : Prop :=
  StronglySorted (fun rule other => priority rule <= priority other) l.


(** The exceptions the builtins raise on the cells of a table: a
    missing key, text that is no number, a missing cell. *)
Definition builtin_error (e : exn) : Prop :=
  match e with
  | KeyError _ | ValueError _ _ | TypeError _ => True
  | OverflowError _ | FileNotFoundError _ => False
  end.

(** The zero of the floats. *)
Definition zero : spec_float := S754_zero false.

(** ** Sample products *)

(** The product [{current_price: 10.00, cost_price: 9.00, stock: 300}]
    with no unit sold, and a product whose cost price has a floor with
    three decimal places. *)
Definition dead_stock_product : gmap string value :=
  to_dict (product_row "B2" "10.00" "9.00" "300").

Definition dead_stock_sales : gmap string value :=
  to_dict (sales_row "B2" "0").

Definition odd_cost_product : gmap string value :=
  to_dict (product_row "C3" "10.00" "9.01" "50").

(** The float that the decimal [n / 100] denotes. *)
Definition cents (n : N) : spec_float := Float.of_decimal false n (-2).

(** The claim that the floor holds after the rounding. *)
Definition floor_after_rounding : Prop :=
  forall (self : PricingEngine) (product sales_data result : gmap string value)
         (c x : spec_float),
    margin_installed self ->
    cost_price product = Ok c ->
    Float.geb c zero = true ->
    process_product self product sales_data = Ok result ->
    result !! "new_price" = Some (VFloat x) ->
    Float.geb x (Float.mul c lit_1_2) = true.


Definition sample_index : gmap (option string) (gmap string (option string)) :=
  {[ Some "A1" := sales_row "A1" "40" ]}.



(** ** The watcher *)

(** A file system event, as far as [on_modified] reads it. *)
Record event := { is_directory : bool; src_path : string }.

(** [s.endswith(suffix)] *)
Definition endswith (s suffix : string) : bool :=
  bool_decide (list_ascii_of_string suffix `suffix_of` list_ascii_of_string s).

Section Watcher.

Variable md5_hexdigest : string -> string.
Variable DictReader : string -> list (gmap string (option string)).
Variable DictWriter : list string -> list (gmap string value) -> string.

(** [CSVChangeHandler.on_modified]: an event for a file whose path
    ends with the name of a watched table leads to a check; any other
    event is ignored and nothing is reported. *)
Definition on_modified (self : CSVChangeHandler) (ev : event) (fs : gmap string string)
  : CSVChangeHandler * gmap string string * outcome :=
  if negb (is_directory ev) then
    if endswith (src_path ev) (products_file self)
       || endswith (src_path ev) (sales_file self)
    then process_files md5_hexdigest DictReader DictWriter self fs
    else (self, fs, Unchanged)
  else (self, fs, Unchanged).

End Watcher.

(** ** Vocabulary of the further statements *)

(** The price the three tier rules of the standard engine select for a
    current price, a stock and a quantity sold. *)
Definition tier_price (cur : spec_float) (s q : Z) : spec_float :=
  if (s <? 20) && (q >? 30) then Float.mul cur lit_1_15
  else if (s >? 200) && (q =? 0) then Float.mul cur lit_0_7
  else if (s >? 100) && (q <? 20) then Float.mul cur lit_0_9
  else cur.

(** Two products with the same stock, current price and cost price
    cells. *)
Definition same_inputs (product product' : gmap string value) : Prop :=
  product !! "stock" = product' !! "stock" /\
  product !! "current_price" = product' !! "current_price" /\
  product !! "cost_price" = product' !! "cost_price".

(** The engine after the rules of a list are added in turn. *)
Definition add_rules (self : PricingEngine) (l : list PricingRule) : PricingEngine :=
  foldl add_rule self l.

(** ** Further sample data *)

(** An engine in which the overstock rule comes before the dead-stock
    rule. *)
Definition reordered_engine : PricingEngine :=
  add_rules new_engine
    [ {| class_of := LowStockHighDemand; priority := 1 |};
      {| class_of := OverstockedInventory; priority := 2 |};
      {| class_of := DeadStock; priority := 3 |};
      {| class_of := MinimumProfit; priority := 4 |} ].

(** The four standard rules, last first. *)
Definition standard_rules_reversed : list PricingRule :=
  [ {| class_of := MinimumProfit; priority := 4 |};
    {| class_of := OverstockedInventory; priority := 3 |};
    {| class_of := DeadStock; priority := 2 |};
    {| class_of := LowStockHighDemand; priority := 1 |} ].

(** A product with a stock of 50, and a sales record whose quantity is
    no number. *)
Definition mid_stock_product : gmap string value :=
  to_dict (product_row "M1" "10.00" "9.00" "50").

Definition unreadable_sales : gmap string value :=
  to_dict (sales_row "M1" "n/a").

(** The dead-stock product under another SKU and with one more column. *)
Definition relabelled_product : gmap string value :=
  <["name" := VStr "lamp"]> (to_dict (product_row "Z9" "10.00" "9.00" "300")).

(** A sales table with two rows for one SKU. *)
Definition duplicate_sales_text : string :=
  Plain.line ["sku"; "quantity_sold"]
  +:+ Plain.line ["A1"; "40"]
  +:+ Plain.line ["B2"; "7"]
  +:+ Plain.line ["A1"; "5"].

(** The handler after its first check of the sample files, and the
    sample files without the sales table. *)
Definition settled_handler : CSVChangeHandler :=
  (process_files Plain.digest Plain.reader Plain.writer sample_handler sample_files).1.1.

Definition files_without_sales : gmap string string :=
  delete "sales.csv" sample_files.

(** A result whose new price is set and whose current price is no
    number, and the same result without its current price. *)
Definition priced_result : gmap string value :=
  <["new_price" := VFloat (cents 700)]>
    (to_dict (product_row "P7" "n/a" "9.00" "300")).

Definition result_without_current_price : gmap string value :=
  delete "current_price" priced_result.

(** * Properties *)

(** ** Comparison of floats *)

Lemma compare_antisym (x y : spec_float) :
  SFcompare y x = CompOpp <$> SFcompare x y.
Proof.
  destruct x as [sx|sx| |sx mx ex], y as [sy|sy| |sy my ey]; simpl;
    try reflexivity; try (destruct sx; reflexivity);
    try (destruct sy; reflexivity);
    try (destruct sx, sy; reflexivity).
  destruct sx, sy; simpl; try reflexivity;
    rewrite (Z.compare_antisym ex ey);
    destruct (ex ?= ey); simpl; try reflexivity;
    change (Pos.compare_cont Eq my mx) with (Pos.compare my mx);
    change (Pos.compare_cont Eq mx my) with (Pos.compare mx my);
    rewrite (Pos.compare_antisym mx my); reflexivity.
Qed.

Lemma compare_refl (x : spec_float) :
  Float.is_nan x = false -> SFcompare x x = Some Eq.
Proof.
  destruct x as [s|s| |s m e]; simpl; intros H; try discriminate;
    try (destruct s; reflexivity).
  destruct s; rewrite Z.compare_refl;
    change (Pos.compare_cont Eq m m) with (Pos.compare m m);
    rewrite Pos.compare_refl; reflexivity.
Qed.

Lemma compare_nan_free (x y : spec_float) :
  Float.is_nan x = false -> Float.is_nan y = false ->
  exists c, SFcompare x y = Some c.
Proof.
  destruct x, y; simpl; intros Hx Hy; try discriminate; eauto.
Qed.

Lemma leb_refl (x : spec_float) :
  Float.is_nan x = false -> Float.leb x x = true.
Proof.
  intros H. unfold Float.leb, SFleb. rewrite (compare_refl x H). reflexivity.
Qed.

Lemma ltb_leb (x y : spec_float) : Float.ltb x y = true -> Float.leb x y = true.
Proof.
  unfold Float.ltb, Float.leb, SFltb, SFleb.
  destruct (SFcompare x y) as [[]|]; congruence.
Qed.

Lemma ltb_asym (x y : spec_float) : Float.ltb x y = true -> Float.ltb y x = false.
Proof.
  unfold Float.ltb, SFltb. rewrite (compare_antisym x y).
  destruct (SFcompare x y) as [[]|]; simpl; congruence.
Qed.

Lemma ltb_irrefl (x : spec_float) : Float.ltb x x = false.
Proof.
  destruct (Float.ltb x x) eqn:E; [|reflexivity].
  rewrite <- E. apply ltb_asym. exact E.
Qed.

Lemma not_ltb_leb (x y : spec_float) :
  Float.is_nan x = false -> Float.is_nan y = false ->
  Float.ltb x y = false -> Float.leb y x = true.
Proof.
  intros Hx Hy. unfold Float.ltb, Float.leb, SFltb, SFleb.
  rewrite (compare_antisym x y).
  destruct (compare_nan_free x y Hx Hy) as [c ->].
  destruct c; simpl; congruence.
Qed.

Lemma max_not_lt_l (a b : spec_float) : Float.ltb (Float.max a b) a = false.
Proof.
  unfold Float.max, Float.gtb. fold (Float.ltb a b).
  destruct (Float.ltb a b) eqn:E.
  - apply ltb_asym. exact E.
  - apply ltb_irrefl.
Qed.

Lemma max_ge_l (a b : spec_float) :
  Float.is_nan a = false -> Float.geb (Float.max a b) a = true.
Proof.
  intros Ha. unfold Float.geb, Float.max, Float.gtb.
  fold (Float.ltb a b). fold (Float.leb a (if Float.ltb a b then b else a)).
  destruct (Float.ltb a b) eqn:E.
  - apply ltb_leb. exact E.
  - apply leb_refl. exact Ha.
Qed.

Lemma max_ge_r (a b : spec_float) :
  Float.is_nan a = false -> Float.is_nan b = false ->
  Float.geb (Float.max a b) b = true.
Proof.
  intros Ha Hb. unfold Float.geb, Float.max, Float.gtb.
  fold (Float.ltb a b). fold (Float.leb b (if Float.ltb a b then b else a)).
  destruct (Float.ltb a b) eqn:E.
  - apply leb_refl. exact Hb.
  - apply not_ltb_leb; assumption.
Qed.


(** ** The error monad *)

Lemma bind_Ok {A B} (m : res A) (f : A -> res B) (b : B) :
  m ≫= f = Ok b <-> exists a, m = Ok a /\ f a = Ok b.
Proof.
  destruct m as [a|e]; simpl; split.
  - intros H. exists a. auto.
  - intros (a' & Ha & H). congruence.
  - discriminate.
  - intros (a' & Ha & _). discriminate.
Qed.

(** ** The order of the rules *)

Lemma sort_insert_elem (rule x : PricingRule) (l : list PricingRule) :
  x ∈ sort_insert rule l <-> x = rule \/ x ∈ l.
Proof.
  induction l as [|other l IH]; simpl.
  - rewrite list_elem_of_singleton, elem_of_nil. tauto.
  - destruct (rule_lt other rule).
    + rewrite !elem_of_cons, IH. tauto.
    + rewrite !elem_of_cons. tauto.
Qed.

Lemma sort_insert_ascending (rule : PricingRule) (l : list PricingRule) :
  ascending l -> ascending (sort_insert rule l).
Proof.
  unfold ascending. induction 1 as [|other l Hl IH Hall]; simpl.
  - repeat constructor.
  - destruct (rule_lt other rule) eqn:E; unfold rule_lt in E.
    + constructor; [exact IH|].
      apply Forall_forall. intros x Hx. apply sort_insert_elem in Hx as [->|Hx].
      * apply Z.ltb_lt in E. lia.
      * rewrite Forall_forall in Hall. auto.
    + apply Z.ltb_ge in E. constructor.
      * constructor; assumption.
      * constructor; [exact E|].
        eapply Forall_impl; [exact Hall|]. simpl. intros x Hx. lia.
Qed.

Lemma sort_ascending (l : list PricingRule) : ascending (sort l).
Proof.
  induction l as [|rule l IH]; simpl.
  - constructor.
  - apply sort_insert_ascending. exact IH.
Qed.

Lemma filter_ascending (P : PricingRule -> Prop) `{!forall x, Decision (P x)}
    (l : list PricingRule) :
  ascending l -> ascending (filter P l).
Proof.
  unfold ascending. induction 1 as [|rule l Hl IH Hall].
  - constructor.
  - rewrite filter_cons. destruct (decide (P rule)); [|exact IH].
    constructor; [exact IH|].
    apply Forall_forall. intros x Hx. apply list_elem_of_filter in Hx as [_ Hx].
    rewrite Forall_forall in Hall. auto.
Qed.

(** The engine keeps its rules in ascending order of priority. *)
Lemma reachable_ascending (self : PricingEngine) :
  reachable self -> ascending (rules self).
Proof.
  induction 1 as [|self rule _ _|self cls _ IH]; simpl.
  - constructor.
  - apply sort_ascending.
  - apply filter_ascending. exact IH.
Qed.

Lemma sort_insert_perm (rule : PricingRule) (l : list PricingRule) :
  sort_insert rule l ≡ₚ rule :: l.
Proof.
  induction l as [|other l IH]; simpl; [reflexivity|].
  destruct (rule_lt other rule); [|reflexivity].
  rewrite IH. apply Permutation_swap.
Qed.

Lemma sort_perm (l : list PricingRule) : sort l ≡ₚ l.
Proof.
  induction l as [|rule l IH]; simpl; [reflexivity|].
  rewrite sort_insert_perm, IH. reflexivity.
Qed.

Lemma sort_insert_head (rule : PricingRule) (l : list PricingRule) :
  Forall (fun other => priority rule <= priority other) l ->
  sort_insert rule l = rule :: l.
Proof.
  destruct 1 as [|other l H _]; simpl; [reflexivity|].
  unfold rule_lt. replace (priority other <? priority rule) with false; [reflexivity|].
  symmetry. apply Z.ltb_ge. exact H.
Qed.

(** X2. Adding a rule keeps every rule and leaves the rules in ascending
    order of priority; when they were in ascending order, the new rule
    goes after the rules of lower or equal priority and before those of
    higher priority, and the others keep their order. *)
Theorem add_rule_sorted (self : PricingEngine) (rule : PricingRule) :
  rules (add_rule self rule) ≡ₚ rule :: rules self /\
  ascending (rules (add_rule self rule)) /\
  (ascending (rules self) ->
   exists before after,
     rules self = before ++ after /\
     rules (add_rule self rule) = before ++ rule :: after /\
     Forall (fun other => priority other <= priority rule) before /\
     Forall (fun other => priority rule < priority other) after).
Proof.
  unfold add_rule. simpl. split; [|split].
  - rewrite sort_perm. apply Permutation_app_comm.
  - apply sort_ascending.
  - generalize (rules self). clear self. unfold ascending.
    induction 1 as [|other l Hl IH Hall]; simpl.
    + exists [], []. repeat split; constructor.
    + destruct IH as (before & after & -> & E & Hb & Ha). rewrite E.
      destruct before as [|b before]; simpl in *.
      * destruct (rule_lt rule other) eqn:Hlt; unfold rule_lt in Hlt.
        -- apply Z.ltb_lt in Hlt. rewrite (sort_insert_head other after Hall).
           exists [], (other :: after). repeat split; constructor; assumption.
        -- apply Z.ltb_ge in Hlt. exists [other], after.
           repeat split; try assumption. constructor; [exact Hlt|constructor].
      * apply Forall_cons in Hb as [Hb1 Hb2]. apply Forall_cons in Hall as [Hob Hall].
        replace (rule_lt b other) with false
          by (unfold rule_lt; symmetry; apply Z.ltb_ge; exact Hob).
        exists (other :: b :: before), after. repeat split; try assumption.
        constructor; [lia|]. constructor; assumption.
Qed.

Lemma ascending_app_inv (pre post : list PricingRule) (rule x : PricingRule) :
  ascending (pre ++ rule :: post) -> x ∈ post -> priority rule <= priority x.
Proof.
  unfold ascending. intros H Hx.
  apply StronglySorted_app_1_r in H.
  apply StronglySorted_cons in H as [H _].
  rewrite Forall_forall in H. auto.
Qed.

(** ** Phase 1: tier selection *)

Lemma fires_not_passed (product sales_data : gmap string value) (rule : PricingRule) :
  fires product sales_data rule -> passes_over product sales_data rule -> False.
Proof. intros [Hm Hs] [Hm'|Hs']; congruence. Qed.

(** The scan ends on the first rule that fires, and the flag tells
    whether there is one. *)
Lemma scan_spec (rs : list PricingRule) (product sales_data result result' : gmap string value)
    (flag : bool) :
  scan rs product sales_data result = Ok (result', flag) <->
  (flag = true /\
   exists pre rule post p,
     rs = pre ++ rule :: post /\
     Forall (passes_over product sales_data) pre /\
     fires product sales_data rule /\
     apply rule product sales_data = Ok p /\
     result' = <["new_price" := VFloat p]> result)
  \/ (flag = false /\ Forall (passes_over product sales_data) rs /\ result' = result).
Proof.
  induction rs as [|rule rs IH]; simpl.
  - split.
    + intros [= <- <-]. right. auto.
    + intros [(_ & pre & rule & post & p & Hrs & _)|(-> & _ & ->)]; [|reflexivity].
      destruct pre; discriminate.
  - destruct (is_minimum_profit rule) eqn:Hmin.
    + rewrite IH. split.
      * intros [(-> & pre & r & post & p & -> & Hpre & Hr & Hp & ->)|(-> & Hall & ->)].
        -- left. split; [reflexivity|]. exists (rule :: pre), r, post, p.
           repeat split; try assumption; try apply Hr.
           constructor; [left; exact Hmin | exact Hpre].
        -- right. repeat split. constructor; [left; exact Hmin | exact Hall].
      * intros [(-> & pre & r & post & p & Hrs & Hpre & Hr & Hp & ->)|(-> & Hall & ->)].
        -- left. split; [reflexivity|]. destruct pre as [|r0 pre].
           ++ simpl in Hrs. injection Hrs as <- <-. destruct Hr as [Hr _]. congruence.
           ++ simpl in Hrs. injection Hrs as <- ->. exists pre, r, post, p.
              apply Forall_cons in Hpre as [_ Hpre]. auto.
        -- right. apply Forall_cons in Hall as [_ Hall]. auto.
    + destruct (should_apply rule product sales_data) as [[|]|e] eqn:Hs; simpl.
      * destruct (apply rule product sales_data) as [p|e] eqn:Hp; simpl; split.
        -- intros [= <- <-]. left. split; [reflexivity|].
           exists [], rule, rs, p. repeat split; auto.
        -- intros [(-> & pre & r & post & p' & Hrs & Hpre & Hr & Hp' & ->)|(-> & Hall & ->)].
           ++ destruct pre as [|r0 pre]; simpl in Hrs.
              ** injection Hrs as <- <-. congruence.
              ** injection Hrs as <- ->. apply Forall_cons in Hpre as [[Hc|Hc] _]; congruence.
           ++ apply Forall_cons in Hall as [[Hc|Hc] _]; congruence.
        -- discriminate.
        -- intros [(-> & pre & r & post & p' & Hrs & Hpre & Hr & Hp' & ->)|(-> & Hall & ->)].
           ++ destruct pre as [|r0 pre]; simpl in Hrs.
              ** injection Hrs as <- <-. congruence.
              ** injection Hrs as <- ->. apply Forall_cons in Hpre as [[Hc|Hc] _]; congruence.
           ++ apply Forall_cons in Hall as [[Hc|Hc] _]; congruence.
      * rewrite IH. split.
        -- intros [(-> & pre & r & post & p & -> & Hpre & Hr & Hp & ->)|(-> & Hall & ->)].
           ++ left. split; [reflexivity|]. exists (rule :: pre), r, post, p.
              repeat split; try assumption; try apply Hr.
              constructor; [right; exact Hs | exact Hpre].
           ++ right. repeat split. constructor; [right; exact Hs | exact Hall].
        -- intros [(-> & pre & r & post & p & Hrs & Hpre & Hr & Hp & ->)|(-> & Hall & ->)].
           ++ left. split; [reflexivity|]. destruct pre as [|r0 pre]; simpl in Hrs.
              ** injection Hrs as <- <-. destruct Hr as [_ Hr]. congruence.
              ** injection Hrs as <- ->. exists pre, r, post, p.
                 apply Forall_cons in Hpre as [_ Hpre]. auto.
           ++ right. apply Forall_cons in Hall as [_ Hall]. auto.
      * split; [discriminate|].
        intros [(-> & pre & r & post & p & Hrs & Hpre & Hr & Hp & ->)|(-> & Hall & ->)].
        -- destruct pre as [|r0 pre]; simpl in Hrs.
           ++ injection Hrs as <- <-. destruct Hr as [_ Hr]. congruence.
           ++ injection Hrs as <- ->. apply Forall_cons in Hpre as [[Hc|Hc] _]; congruence.
        -- apply Forall_cons in Hall as [[Hc|Hc] _]; congruence.
Qed.

Lemma phase1_unfold (self : PricingEngine) (product sales_data : gmap string value) :
  phase1 self product sales_data =
  old ← current_price product;
  '(result, applied) ← scan (rules self) product sales_data
                         (<["old_price" := VFloat old]> product);
  Ok (if applied : bool then result else <["new_price" := VFloat old]> result).
Proof.
  unfold phase1, current_price.
  destruct (getitem product "current_price") as [v|e]; simpl; [|reflexivity].
  destruct (py_float v) as [old|e]; simpl; [|reflexivity].
  destruct (scan _ _ _ _) as [[result []]|e]; reflexivity.
Qed.

Lemma phase1_spec (self : PricingEngine) (product sales_data r1 : gmap string value) :
  phase1 self product sales_data = Ok r1 <->
  exists old,
    current_price product = Ok old /\
    ((exists pre rule post p,
         rules self = pre ++ rule :: post /\
         Forall (passes_over product sales_data) pre /\
         fires product sales_data rule /\
         apply rule product sales_data = Ok p /\
         r1 = <["new_price" := VFloat p]> (<["old_price" := VFloat old]> product))
     \/ (Forall (passes_over product sales_data) (rules self) /\
         r1 = <["new_price" := VFloat old]> (<["old_price" := VFloat old]> product))).
Proof.
  rewrite phase1_unfold.
  destruct (current_price product) as [old|e] eqn:Hold; simpl.
  2:{ split; [discriminate|]. intros (old & Hc & _). discriminate. }
  split.
  - intros H. exists old. split; [reflexivity|].
    apply bind_Ok in H as ([result flag] & Hscan & H).
    apply scan_spec in Hscan
      as [(-> & pre & rule & post & p & Hrs & Hpre & Hr & Hp & ->)|(-> & Hall & ->)].
    + simpl in H. injection H as <-. left. exists pre, rule, post, p. auto.
    + simpl in H. injection H as <-. right. auto.
  - intros (old' & [= <-] & [(pre & rule & post & p & Hrs & Hpre & Hr & Hp & ->)|(Hall & ->)]).
    + apply bind_Ok.
      exists (<["new_price" := VFloat p]> (<["old_price" := VFloat old]> product), true).
      split; [|reflexivity]. apply scan_spec. left. split; [reflexivity|].
      exists pre, rule, post, p. auto.
    + apply bind_Ok. exists (<["old_price" := VFloat old]> product, false).
      split; [|reflexivity]. apply scan_spec. right. auto.
Qed.

(** C1. Phase 1 applies the first rule, in the order of the engine and
    the minimum profit rule apart, whose predicate is true, and that
    rule alone sets the price before the floor; if none fires the price
    before the floor is the current price. The rules of a reachable
    engine are in ascending order of priority, so no rule that fires
    has a lower priority number than the one applied. *)
Theorem tier_selection (self : PricingEngine) (product sales_data r1 : gmap string value) :
  reachable self ->
  (phase1 self product sales_data = Ok r1 <->
   exists old,
     current_price product = Ok old /\
     ((exists pre rule post p,
          rules self = pre ++ rule :: post /\
          Forall (passes_over product sales_data) pre /\
          fires product sales_data rule /\
          apply rule product sales_data = Ok p /\
          r1 = <["new_price" := VFloat p]> (<["old_price" := VFloat old]> product) /\
          (forall other, other ∈ rules self -> fires product sales_data other ->
                         priority rule <= priority other))
      \/ (Forall (passes_over product sales_data) (rules self) /\
          r1 = <["new_price" := VFloat old]> (<["old_price" := VFloat old]> product)))).
Proof.
  intros Hreach. rewrite phase1_spec. split.
  - intros (old & Hold & [(pre & rule & post & p & Hrs & Hpre & Hr & Hp & ->)|H]);
      exists old; (split; [exact Hold|]); [left|right; exact H].
    exists pre, rule, post, p. repeat split; try assumption; try apply Hr.
    intros other Hin Hother. apply reachable_ascending in Hreach.
    rewrite Hrs in Hin, Hreach.
    apply elem_of_app in Hin as [Hin|Hin].
    + rewrite Forall_forall in Hpre. destruct (fires_not_passed _ _ _ Hother (Hpre _ Hin)).
    + apply elem_of_cons in Hin as [->|Hin]; [lia|].
      eapply ascending_app_inv; eassumption.
  - intros (old & Hold & [(pre & rule & post & p & Hrs & Hpre & Hr & Hp & -> & _)|H]);
      exists old; (split; [exact Hold|]); [left|right; exact H].
    exists pre, rule, post, p. auto.
Qed.

(** ** Rounding never yields a NaN *)

Lemma shr_1_nonneg (mrs : shr_record) : 0 <= shr_m mrs -> 0 <= shr_m (shr_1 mrs).
Proof.
  destruct mrs as [m r s]. simpl.
  destruct m as [|p|p]; [|destruct p|]; simpl; lia.
Qed.

Lemma iter_pos_invariant {A} (P : A -> Prop) (f : A -> A) :
  (forall x, P x -> P (f x)) -> forall p x, P x -> P (SpecFloat.iter_pos f p x).
Proof. intros Hf. induction p as [p IH|p IH|]; simpl; auto. Qed.

Lemma shr_nonneg (mrs : shr_record) (e n : Z) :
  0 <= shr_m mrs -> 0 <= shr_m (shr mrs e n).1.
Proof.
  intros H. destruct n as [|p|p]; simpl; try exact H.
  apply (iter_pos_invariant (fun x => 0 <= shr_m x)); [apply shr_1_nonneg | exact H].
Qed.

Lemma shr_fexp_nonneg (m e : Z) (l : location) :
  0 <= m -> 0 <= shr_m (shr_fexp Float.prec Float.emax m e l).1.
Proof.
  intros H. unfold shr_fexp. apply shr_nonneg.
  destruct l as [|[]]; exact H.
Qed.

Lemma round_nearest_even_nonneg (m : Z) (l : location) :
  0 <= m -> 0 <= round_nearest_even m l.
Proof.
  intros H. destruct l as [|[]]; simpl; try lia. destruct (Z.even m); lia.
Qed.

Lemma binary_round_aux_not_nan (s : bool) (m e : Z) (l : location) :
  0 <= m -> Float.is_nan (binary_round_aux Float.prec Float.emax s m e l) = false.
Proof.
  intros H. unfold binary_round_aux.
  pose proof (shr_fexp_nonneg m e l H) as H1.
  destruct (shr_fexp Float.prec Float.emax m e l) as [mrs' e']. simpl in H1.
  pose proof (shr_fexp_nonneg _ e' loc_Exact
                (round_nearest_even_nonneg _ (loc_of_shr_record mrs') H1)) as H2.
  destruct (shr_fexp Float.prec Float.emax _ e' loc_Exact) as [mrs'' e'']. simpl in H2.
  destruct (shr_m mrs'') as [|p|p]; [reflexivity| |lia].
  destruct (e'' <=? Float.emax - Float.prec); reflexivity.
Qed.

(** A product with a finite non-zero factor is a NaN only if the other
    factor is. *)
Lemma mul_finite_not_nan (x : spec_float) (s : bool) (m : positive) (e : Z) :
  Float.is_nan x = false -> Float.is_nan (Float.mul x (S754_finite s m e)) = false.
Proof.
  destruct x as [sx|sx| |sx mx ex]; simpl; intros H; try reflexivity; try discriminate.
  apply binary_round_aux_not_nan. lia.
Qed.

Lemma leb_not_nan_r (x y : spec_float) : Float.leb x y = true -> Float.is_nan y = false.
Proof.
  unfold Float.leb, SFleb. destruct x, y; simpl; congruence.
Qed.

(** ** Phase 2: the floor *)

Lemma apply_minimum_profit (rule : PricingRule) (product sales_data : gmap string value) :
  is_minimum_profit rule = true ->
  apply rule product sales_data = MinimumProfitRule.apply product sales_data.
Proof.
  unfold is_minimum_profit, apply. intros H. apply bool_decide_eq_true in H.
  rewrite H. reflexivity.
Qed.

Lemma minimum_profit_apply_spec (product sales_data : gmap string value) (p q : spec_float) :
  product !! "new_price" = Some (VFloat p) ->
  MinimumProfitRule.apply product sales_data = Ok q <->
  exists c,
    cost_price product = Ok c /\ is_Some (product !! "current_price") /\
    q = Float.max p (Float.mul c lit_1_2).
Proof.
  intros Hnew. unfold MinimumProfitRule.apply, cost_price, get. rewrite Hnew. simpl.
  destruct (getitem product "cost_price") as [v|e]; simpl.
  2:{ split; [discriminate|]. intros (c & Hc & _). discriminate. }
  destruct (py_float v) as [c|e]; simpl.
  2:{ split; [discriminate|]. intros (c & Hc & _). discriminate. }
  unfold getitem. destruct (product !! "current_price") as [w|]; simpl; split.
  - intros [= <-]. exists c. eauto.
  - intros (c' & [= <-] & _ & ->). reflexivity.
  - discriminate.
  - intros (_ & _ & [w Hw] & _). discriminate.
Qed.

Lemma phase2_installed (self : PricingEngine) (sales_data r1 : gmap string value) :
  margin_installed self ->
  phase2 self sales_data r1 =
  q ← MinimumProfitRule.apply r1 sales_data; Ok (<["new_price" := VFloat q]> r1).
Proof.
  intros (rule & Hin & Hmin). unfold phase2.
  destruct (filter _ (rules self)) as [|r l] eqn:E.
  - assert (rule ∈ filter (fun r => is_minimum_profit r = true) (rules self)) as Hf
      by (apply list_elem_of_filter; auto).
    rewrite E in Hf. apply elem_of_nil in Hf. destruct Hf.
  - assert (r ∈ filter (fun r => is_minimum_profit r = true) (rules self)) as Hf
      by (rewrite E; apply elem_of_cons; auto).
    apply list_elem_of_filter in Hf as [Hr _].
    rewrite (apply_minimum_profit r _ _ Hr). reflexivity.
Qed.

(** C5. With the minimum profit rule installed, phase 2 replaces the
    working price [p] of phase 1 by [max(p, cost_price * 1.2)] and does
    nothing else. The result is [p] itself or a price above [p]: it
    never compares less than [p], and it compares at least equal to [p]
    whenever [p] is a number. Phase 2 returns whenever the cost price
    and the current price can be read. *)
Theorem floor_never_lowers (self : PricingEngine) (sales_data r1 : gmap string value)
    (p : spec_float) :
  margin_installed self ->
  r1 !! "new_price" = Some (VFloat p) ->
  (forall r2,
      phase2 self sales_data r1 = Ok r2 ->
      exists c q,
        cost_price r1 = Ok c /\
        q = Float.max p (Float.mul c lit_1_2) /\
        r2 = <["new_price" := VFloat q]> r1 /\
        (q = p \/ Float.ltb p q = true) /\
        Float.ltb q p = false /\
        (Float.is_nan p = false -> Float.geb q p = true))
  /\ (forall c,
         cost_price r1 = Ok c -> is_Some (r1 !! "current_price") ->
         phase2 self sales_data r1
         = Ok (<["new_price" := VFloat (Float.max p (Float.mul c lit_1_2))]> r1)).
Proof.
  intros Hinst Hnew. rewrite (phase2_installed _ _ _ Hinst). split.
  - intros r2 H. apply bind_Ok in H as (q & Hq & [= <-]).
    apply (minimum_profit_apply_spec _ _ p q Hnew) in Hq as (c & Hc & _ & ->).
    exists c, (Float.max p (Float.mul c lit_1_2)).
    repeat split; try assumption.
    + unfold Float.max, Float.gtb. fold (Float.ltb p (Float.mul c lit_1_2)).
      destruct (Float.ltb p (Float.mul c lit_1_2)) eqn:E; auto.
    + apply max_not_lt_l.
    + apply max_ge_l.
  - intros c Hc Hcur. apply bind_Ok. eexists. split; [|reflexivity].
    apply (minimum_profit_apply_spec _ _ p _ Hnew). eauto.
Qed.

(** ** The whole evaluation *)

(** Every successful evaluation has the same shape: the result is the
    product with [old_price] and [new_price] set, phase 1 fixes a price
    [p], phase 2 a price [q], and the new price is [round(q, 2)]. *)
Lemma process_product_shape (self : PricingEngine)
    (product sales_data result : gmap string value) :
  process_product self product sales_data = Ok result <->
  exists old p q,
    current_price product = Ok old /\
    phase1 self product sales_data
    = Ok (<["new_price" := VFloat p]> (<["old_price" := VFloat old]> product)) /\
    phase2 self sales_data (<["new_price" := VFloat p]> (<["old_price" := VFloat old]> product))
    = Ok (<["new_price" := VFloat q]> (<["old_price" := VFloat old]> product)) /\
    result = <["new_price" := VFloat (Float.round q 2)]> (<["old_price" := VFloat old]> product).
Proof.
  unfold process_product. split.
  - intros H. apply bind_Ok in H as (r1 & H1 & H). apply bind_Ok in H as (r2 & H2 & H3).
    assert (exists old p, current_price product = Ok old /\
              r1 = <["new_price" := VFloat p]> (<["old_price" := VFloat old]> product))
      as (old & p & Hold & ->).
    { apply phase1_spec in H1
        as (old & Hold & [(pre & rule & post & p & _ & _ & _ & _ & ->)|(_ & ->)]); eauto. }
    assert (exists q, r2 = <["new_price" := VFloat q]> (<["old_price" := VFloat old]> product))
      as (q & ->).
    { unfold phase2 in H2. destruct (filter _ (rules self)) as [|r l].
      - injection H2 as <-. eauto.
      - apply bind_Ok in H2 as (q & _ & [= <-]). exists q. apply insert_insert_eq. }
    exists old, p, q. repeat split; try assumption.
    unfold round_step, getitem in H3. rewrite lookup_insert_eq in H3. simpl in H3.
    injection H3 as <-. apply insert_insert_eq.
  - intros (old & p & q & _ & H1 & H2 & ->).
    rewrite H1. simpl. rewrite H2. simpl.
    unfold round_step, getitem. rewrite lookup_insert_eq. simpl.
    rewrite insert_insert_eq. reflexivity.
Qed.

(** C8. The old price of a decision is the current price of the
    product as read at the start, [float(product['current_price'])]:
    phase 1, phase 2 and the rounding leave it as it is and change
    [new_price] only, and every other field of the decision is the
    field of the product. *)
Theorem old_price_frame (self : PricingEngine)
    (product sales_data result : gmap string value) :
  process_product self product sales_data = Ok result ->
  exists old r1 r2,
    current_price product = Ok old /\
    phase1 self product sales_data = Ok r1 /\
    phase2 self sales_data r1 = Ok r2 /\
    round_step r2 = Ok result /\
    r1 !! "old_price" = Some (VFloat old) /\
    r2 !! "old_price" = Some (VFloat old) /\
    result !! "old_price" = Some (VFloat old) /\
    (exists q, r2 = <["new_price" := q]> r1) /\
    (exists x, result = <["new_price" := x]> r2) /\
    (forall key, key ≠ "old_price" -> key ≠ "new_price" -> result !! key = product !! key).
Proof.
  intros H. pose proof H as Hshape.
  apply process_product_shape in Hshape as (old & p & q & Hold & H1 & H2 & ->).
  exists old, (<["new_price" := VFloat p]> (<["old_price" := VFloat old]> product)),
    (<["new_price" := VFloat q]> (<["old_price" := VFloat old]> product)).
  repeat split; try assumption.
  - unfold round_step, getitem. rewrite lookup_insert_eq. simpl.
    rewrite insert_insert_eq. reflexivity.
  - rewrite lookup_insert_ne by done. apply lookup_insert_eq.
  - rewrite lookup_insert_ne by done. apply lookup_insert_eq.
  - rewrite lookup_insert_ne by done. apply lookup_insert_eq.
  - exists (VFloat q). symmetry. apply insert_insert_eq.
  - exists (VFloat (Float.round q 2)). symmetry. apply insert_insert_eq.
  - intros key Hk1 Hk2. rewrite !lookup_insert_ne by done. reflexivity.
Qed.

(** ** The floor and the rounding *)

Lemma literals_finite :
  Forall (fun x => exists s m e, x = S754_finite s m e)
         [lit_1_15; lit_0_7; lit_0_9; lit_1_2].
Proof. repeat constructor; eexists _, _, _; vm_compute; reflexivity. Qed.

Lemma lit_1_2_finite : exists s m e, lit_1_2 = S754_finite s m e.
Proof. eexists _, _, _. vm_compute. reflexivity. Qed.

Lemma tier_price_not_nan (rule : PricingRule) (product sales_data : gmap string value)
    (cur p : spec_float) :
  is_minimum_profit rule = false ->
  current_price product = Ok cur -> Float.is_nan cur = false ->
  apply rule product sales_data = Ok p -> Float.is_nan p = false.
Proof.
  intros Hmin Hcur Hnan. unfold current_price in Hcur.
  pose proof literals_finite as Hlit.
  apply Forall_cons in Hlit as [(s1 & m1 & e1 & E1) Hlit].
  apply Forall_cons in Hlit as [(s2 & m2 & e2 & E2) Hlit].
  apply Forall_cons in Hlit as [(s3 & m3 & e3 & E3) _].
  unfold apply, is_minimum_profit in *.
  destruct (class_of rule); try discriminate;
    unfold LowStockHighDemandRule.apply, DeadStockRule.apply,
      OverstockedInventoryRule.apply, scale_current_price;
    destruct (getitem product "current_price") as [v|]; simpl in *; try discriminate;
    destruct (py_float v) as [c|]; simpl in *; try discriminate;
    injection Hcur as ->; intros [= <-];
    rewrite ?E1, ?E2, ?E3; apply mul_finite_not_nan; exact Hnan.
Qed.

Lemma standard_rules :
  rules standard_engine =
  [ {| class_of := LowStockHighDemand; priority := 1 |};
    {| class_of := DeadStock; priority := 2 |};
    {| class_of := OverstockedInventory; priority := 3 |};
    {| class_of := MinimumProfit; priority := 4 |} ].
Proof. reflexivity. Qed.

Lemma standard_reachable : reachable standard_engine.
Proof. unfold standard_engine. repeat apply reachable_add. apply reachable_new. Qed.

Lemma standard_margin_installed : margin_installed standard_engine.
Proof.
  exists {| class_of := MinimumProfit; priority := 4 |}. split; [|reflexivity].
  rewrite standard_rules, !elem_of_cons. auto.
Qed.

(** C2, as stated, fails: with a cost price of 9.01 the floor is
    10.812 and no tier rule fires on a stock of 50, so the price before
    rounding is the floor and the rounded price 10.81 is below it. *)
Lemma floor_after_rounding_fails :
  margin_installed standard_engine /\
  cost_price odd_cost_product = Ok (cents 901) /\
  Float.geb (cents 901) zero = true /\
  process_product standard_engine odd_cost_product (to_dict default_sales)
  = Ok (<["new_price" := VFloat (cents 1081)]>
          (<["old_price" := VFloat (cents 1000)]> odd_cost_product)) /\
  Float.geb (cents 1081) (Float.mul (cents 901) lit_1_2) = false /\
  Float.ltb (cents 1081) (Float.mul (cents 901) lit_1_2) = true /\
  ~ floor_after_rounding.
Proof.
  split; [exact standard_margin_installed|].
  repeat (split; [vm_compute; reflexivity|]).
  intros H.
  specialize (H standard_engine odd_cost_product (to_dict default_sales)
                (<["new_price" := VFloat (cents 1081)]>
                   (<["old_price" := VFloat (cents 1000)]> odd_cost_product))
                (cents 901) (cents 1081)
                standard_margin_installed).
  assert (Float.geb (cents 1081) (Float.mul (cents 901) lit_1_2) = false) as Hlt
    by (vm_compute; reflexivity).
  rewrite H in Hlt; [discriminate| | | |]; vm_compute; reflexivity.
Qed.

(** C2, amended. With the minimum profit rule installed, a cost price
    that is at least zero and a current price that is a number, the
    price [q] that phase 2 hands to the rounding is
    [max(p, cost_price * 1.2)] for the price [p] of phase 1, and it is
    at least [cost_price * 1.2], whichever tier rule fired; the new
    price of the decision is [round(q, 2)]. *)
Theorem floor_before_rounding (self : PricingEngine)
    (product sales_data result : gmap string value) (c cur : spec_float) :
  margin_installed self ->
  cost_price product = Ok c ->
  Float.geb c zero = true ->
  current_price product = Ok cur ->
  Float.is_nan cur = false ->
  process_product self product sales_data = Ok result ->
  exists r1 r2 p q,
    phase1 self product sales_data = Ok r1 /\
    r1 !! "new_price" = Some (VFloat p) /\
    phase2 self sales_data r1 = Ok r2 /\
    r2 !! "new_price" = Some (VFloat q) /\
    q = Float.max p (Float.mul c lit_1_2) /\
    Float.geb q (Float.mul c lit_1_2) = true /\
    result !! "new_price" = Some (VFloat (Float.round q 2)).
Proof.
  intros Hinst Hc Hc0 Hcur Hnan H.
  apply process_product_shape in H as (old & p & q & Hold & H1 & H2 & ->).
  exists (<["new_price" := VFloat p]> (<["old_price" := VFloat old]> product)),
    (<["new_price" := VFloat q]> (<["old_price" := VFloat old]> product)), p, q.
  split; [exact H1|]. split; [apply lookup_insert_eq|].
  split; [exact H2|]. split; [apply lookup_insert_eq|].
  assert (Float.is_nan p = false) as Hp.
  { apply phase1_spec in H1
      as (old' & Hold' & [(pre & rule & post & p' & _ & _ & [Hr _] & Hp' & E)|(_ & E)]).
    - apply (f_equal (fun m => m !! "new_price")) in E.
      rewrite !lookup_insert_eq in E. injection E as ->.
      exact (tier_price_not_nan rule product sales_data cur p' Hr Hcur Hnan Hp').
    - apply (f_equal (fun m => m !! "new_price")) in E.
      rewrite !lookup_insert_eq in E. injection E as ->. congruence. }
  rewrite (phase2_installed _ _ _ Hinst) in H2.
  apply bind_Ok in H2 as (q' & Hq' & E).
  apply (minimum_profit_apply_spec _ _ p q' (lookup_insert_eq _ _ _)) in Hq'
    as (c' & Hc' & _ & ->).
  injection E as E. apply (f_equal (fun m => m !! "new_price")) in E.
  rewrite !lookup_insert_eq in E. injection E as <-.
  assert (c' = c) as ->.
  { unfold cost_price, getitem in Hc'. rewrite !lookup_insert_ne in Hc' by done.
    unfold cost_price, getitem in Hc. congruence. }
  split; [reflexivity|]. split; [|apply lookup_insert_eq].
  apply max_ge_r; [exact Hp|].
  destruct lit_1_2_finite as (s & m & e & ->).
  apply mul_finite_not_nan. apply (leb_not_nan_r zero c). exact Hc0.
Qed.

(** ** The worked example *)

(** C4. On [{current_price: 10.00, cost_price: 9.00, stock: 300}] with
    no unit sold and the four standard rules, the scarcity rule does
    not fire and the dead-stock rule does; the price before the floor
    is 7.00; the floor [9.00 * 1.2], which is 10.80 to two places, is
    above it and replaces it; the new price of the decision is 10.80
    and the row written reads [$10.00] and [$10.80]. *)
Theorem dead_stock_floor_example :
  let r1 := <["new_price" := VFloat (cents 700)]>
              (<["old_price" := VFloat (cents 1000)]> dead_stock_product) in
  let floor := Float.mul (cents 900) lit_1_2 in
  let result := <["new_price" := VFloat (cents 1080)]>
                  (<["old_price" := VFloat (cents 1000)]> dead_stock_product) in
  LowStockHighDemandRule.should_apply dead_stock_product dead_stock_sales = Ok false /\
  DeadStockRule.should_apply dead_stock_product dead_stock_sales = Ok true /\
  DeadStockRule.apply dead_stock_product dead_stock_sales = Ok (cents 700) /\
  phase1 standard_engine dead_stock_product dead_stock_sales = Ok r1 /\
  cost_price dead_stock_product = Ok (cents 900) /\
  Float.gtb floor (cents 700) = true /\
  Float.format_2f floor = "10.80" /\
  phase2 standard_engine dead_stock_sales r1 = Ok (<["new_price" := VFloat floor]> r1) /\
  Float.round floor 2 = cents 1080 /\
  process_product standard_engine dead_stock_product dead_stock_sales = Ok result /\
  output_row result
  = Ok (<["sku" := VStr "B2"]>
          (<["old_price" := VStr "$10.00"]> (<["new_price" := VStr "$10.80"]> ∅))).
Proof. repeat split; vm_compute; reflexivity. Qed.

(** ** A product without sales *)

(** The rules read the sales record through [quantity_sold] only. *)
Lemma should_apply_quantity (rule : PricingRule) (product s1 s2 : gmap string value) :
  quantity_sold s1 = quantity_sold s2 ->
  should_apply rule product s1 = should_apply rule product s2.
Proof.
  intros H. unfold should_apply.
  destruct (class_of rule); try reflexivity;
    unfold LowStockHighDemandRule.should_apply, DeadStockRule.should_apply,
      OverstockedInventoryRule.should_apply; rewrite H; reflexivity.
Qed.

Lemma apply_any_sales (rule : PricingRule) (product s1 s2 : gmap string value) :
  apply rule product s1 = apply rule product s2.
Proof. unfold apply. destruct (class_of rule); reflexivity. Qed.

Lemma scan_quantity (rs : list PricingRule) (product s1 s2 result : gmap string value) :
  quantity_sold s1 = quantity_sold s2 ->
  scan rs product s1 result = scan rs product s2 result.
Proof.
  intros H. induction rs as [|rule rs IH]; simpl; [reflexivity|].
  rewrite IH, (should_apply_quantity rule product s1 s2 H),
    (apply_any_sales rule product s1 s2).
  reflexivity.
Qed.

Lemma phase1_quantity (self : PricingEngine) (product s1 s2 : gmap string value) :
  quantity_sold s1 = quantity_sold s2 ->
  phase1 self product s1 = phase1 self product s2.
Proof.
  intros H. rewrite !phase1_unfold.
  destruct (current_price product) as [old|e]; simpl; [|reflexivity].
  rewrite (scan_quantity _ product s1 s2 _ H). reflexivity.
Qed.

Lemma phase2_any_sales (self : PricingEngine) (s1 s2 result : gmap string value) :
  phase2 self s1 result = phase2 self s2 result.
Proof.
  unfold phase2. destruct (filter _ (rules self)) as [|r l]; [reflexivity|].
  rewrite (apply_any_sales r result s1 s2). reflexivity.
Qed.

Lemma process_product_quantity (self : PricingEngine) (product s1 s2 : gmap string value) :
  quantity_sold s1 = quantity_sold s2 ->
  process_product self product s1 = process_product self product s2.
Proof.
  intros H. unfold process_product. rewrite (phase1_quantity self product s1 s2 H).
  destruct (phase1 self product s2) as [r1|e]; simpl; [|reflexivity].
  rewrite (phase2_any_sales self s1 s2 r1). reflexivity.
Qed.

Lemma default_quantity : quantity_sold (to_dict default_sales) = Ok 0.
Proof. reflexivity. Qed.

(** C7. A product whose SKU is not in the sales index is evaluated
    against [{'quantity_sold': '0'}], which reads as a quantity of 0:
    the scarcity predicate is false, the predicates of the dead-stock
    and overstock rules reduce to their conditions on the stock, and
    the rules and the whole evaluation give what they give on any sales
    record whose quantity reads as 0. *)
Theorem absent_sku_sold_nothing (self : PricingEngine)
    (sales_data : gmap (option string) (gmap string (option string)))
    (product : gmap string (option string)) (sku : option string)
    (record : gmap string value) :
  product !! "sku" = Some sku ->
  sales_data !! sku = None ->
  quantity_sold record = Ok 0 ->
  process_row self sales_data product
  = process_product self (to_dict product) (to_dict default_sales) /\
  quantity_sold (to_dict default_sales) = Ok 0 /\
  process_product self (to_dict product) (to_dict default_sales)
  = process_product self (to_dict product) record /\
  (forall rule,
      should_apply rule (to_dict product) (to_dict default_sales)
      = should_apply rule (to_dict product) record) /\
  (forall s,
      stock (to_dict product) = Ok s ->
      LowStockHighDemandRule.should_apply (to_dict product) (to_dict default_sales) = Ok false /\
      DeadStockRule.should_apply (to_dict product) (to_dict default_sales) = Ok (s >? 200) /\
      OverstockedInventoryRule.should_apply (to_dict product) (to_dict default_sales)
      = Ok (s >? 100)).
Proof.
  intros Hsku Habsent Hzero.
  assert (quantity_sold (to_dict default_sales) = quantity_sold record) as Hq
    by (rewrite Hzero; apply default_quantity).
  split; [|split; [|split; [|split]]].
  - unfold process_row, getitem. rewrite Hsku. simpl. rewrite Habsent. reflexivity.
  - apply default_quantity.
  - apply process_product_quantity. exact Hq.
  - intros rule. apply should_apply_quantity. exact Hq.
  - intros s Hs.
    unfold LowStockHighDemandRule.should_apply, DeadStockRule.should_apply,
      OverstockedInventoryRule.should_apply.
    rewrite Hs, default_quantity. simpl.
    repeat split; destruct (s <? 20), (s >? 200), (s >? 100); reflexivity.
Qed.

(** ** A batch with a malformed row *)


Lemma to_dict_lookup (row : gmap string (option string)) (key : string) :
  to_dict row !! key = cell_value <$> row !! key.
Proof. unfold to_dict. apply lookup_fmap. Qed.



(** A result of [process_row] can always be written. *)
Lemma output_row_ok (self : PricingEngine)
    (sales_data : gmap (option string) (gmap string (option string)))
    (product : gmap string (option string)) (result : gmap string value) :
  process_row self sales_data product = Ok result -> is_Ok (output_row result).
Proof.
  unfold process_row. intros H. apply bind_Ok in H as (sku & Hsku & H).
  apply process_product_shape in H as (old & p & q & _ & _ & _ & ->).
  unfold getitem in Hsku. destruct (product !! "sku") as [c|] eqn:E; [|discriminate].
  set (result := <["new_price" := VFloat (Float.round q 2)]>
                   (<["old_price" := VFloat old]> (to_dict product))).
  assert (result !! "sku" = Some (cell_value c)) as Hs.
  { unfold result. rewrite lookup_insert_ne by done. rewrite lookup_insert_ne by done.
    rewrite to_dict_lookup, E. reflexivity. }
  assert (result !! "old_price" = Some (VFloat old)) as Ho.
  { unfold result. rewrite lookup_insert_ne by done. apply lookup_insert_eq. }
  assert (result !! "new_price" = Some (VFloat (Float.round q 2))) as Hn
    by apply lookup_insert_eq.
  unfold output_row, getitem. rewrite Hs. simpl. rewrite Ho. simpl. rewrite Hn. simpl.
  eexists. reflexivity.
Qed.


Lemma write_rows_all (items : list (gmap string value)) :
  Forall (fun item => is_Ok (output_row item)) items ->
  (write_rows items).2 = None /\
  Forall2 (fun item row => output_row item = Ok row) items (write_rows items).1.
Proof.
  induction 1 as [|item items [row Hrow] _ [IH1 IH2]]; simpl.
  - split; [reflexivity|constructor].
  - rewrite Hrow. simpl. split; [exact IH1|]. constructor; assumption.
Qed.

(** ** The errors of an evaluation *)

(** On the rows of a table, whose cells are text or missing, an
    evaluation raises nothing but a [KeyError], a [ValueError] or a
    [TypeError]. *)
Lemma getitem_error {A} (d : gmap string A) (key : string) (e : exn) :
  getitem d key = Raise e -> builtin_error e.
Proof. unfold getitem. destruct (d !! key); intros [= <-]. exact I. Qed.


Lemma py_float_cell_error (c : option string) (e : exn) :
  py_float (cell_value c) = Raise e -> builtin_error e.
Proof.
  destruct c as [s|]; simpl.
  - destruct (Literal.parse_float s); intros [= <-]. exact I.
  - intros [= <-]. exact I.
Qed.

Lemma to_dict_getitem (row : gmap string (option string)) (key : string) (v : value) :
  getitem (to_dict row) key = Ok v -> exists c, v = cell_value c.
Proof.
  unfold getitem. rewrite to_dict_lookup.
  destruct (row !! key) as [c|]; simpl; intros [= <-]. eauto.
Qed.




Lemma cost_price_error (row : gmap string (option string)) (e : exn) :
  cost_price (to_dict row) = Raise e -> builtin_error e.
Proof.
  unfold cost_price.
  destruct (getitem (to_dict row) "cost_price") as [v|e'] eqn:E; simpl.
  - apply to_dict_getitem in E as [c ->]. apply py_float_cell_error.
  - intros [= <-]. eapply getitem_error. exact E.
Qed.


Lemma scale_current_price_unfold (factor : spec_float) (product : gmap string value) :
  scale_current_price factor product
  = cur ← current_price product; Ok (Float.mul cur factor).
Proof.
  unfold scale_current_price, current_price.
  destruct (getitem product "current_price"); reflexivity.
Qed.




(** ** The pass and the change detector *)

Section PassProperties.

Variable md5_hexdigest : string -> string.
Variable DictReader : string -> list (gmap string (option string)).
Variable DictWriter : list string -> list (gmap string value) -> string.

Local Abbreviation hash := (calculate_file_hash md5_hexdigest).
Local Abbreviation products := (process_products DictReader).
Local Abbreviation pass := (run_pass DictReader DictWriter).
Local Abbreviation check := (process_files md5_hexdigest DictReader DictWriter).


Lemma hash_agree (fs fs' : gmap string string) (path path' : string) :
  fs !! path = fs' !! path' -> hash fs path = hash fs' path'.
Proof. unfold calculate_file_hash. intros ->. reflexivity. Qed.

Lemma products_agree (pf sf : string) (engine : PricingEngine)
    (fs fs' : gmap string string) :
  fs !! pf = fs' !! pf -> fs !! sf = fs' !! sf ->
  products pf sf engine fs = products pf sf engine fs'.
Proof.
  intros Hp Hs. unfold process_products, load_sales_data, open_read.
  rewrite Hp, Hs. reflexivity.
Qed.

Lemma truncate_agree (fs fs' : gmap string string) (out path : string) :
  fs !! path = fs' !! path ->
  <[out := ""]> fs !! path = <[out := ""]> fs' !! path.
Proof.
  intros H. destruct (decide (out = path)) as [->|Hne].
  - rewrite !lookup_insert_eq. reflexivity.
  - rewrite !lookup_insert_ne by exact Hne. exact H.
Qed.

(** The result of a pass is fixed by the contents of the two watched
    tables. *)
Lemma pass_agree (self : CSVChangeHandler) (fs fs' : gmap string string) :
  fs !! products_file self = fs' !! products_file self ->
  fs !! sales_file self = fs' !! sales_file self ->
  (pass self fs).1 !! output_file self = (pass self fs').1 !! output_file self /\
  (pass self fs).2 = (pass self fs').2.
Proof.
  intros Hp Hs. unfold run_pass, write_output. simpl.
  rewrite !lookup_insert_eq.
  rewrite (products_agree _ _ _ (<[output_file self := ""]> fs)
             (<[output_file self := ""]> fs'))
    by (apply truncate_agree; assumption).
  split; reflexivity.
Qed.

Lemma pass_twice (self : CSVChangeHandler) (fs : gmap string string) :
  pass self (pass self fs).1 = pass self fs.
Proof.
  unfold run_pass, write_output. simpl.
  rewrite !insert_insert_eq. reflexivity.
Qed.

Lemma pass_other (self : CSVChangeHandler) (fs : gmap string string) (path : string) :
  output_file self ≠ path -> (pass self fs).1 !! path = fs !! path.
Proof.
  intros Hne. unfold run_pass, write_output. simpl.
  apply lookup_insert_ne. exact Hne.
Qed.

Lemma check_unchanged (self : CSVChangeHandler) (fs : gmap string string) :
  hash fs (products_file self) = products_hash self ->
  hash fs (sales_file self) = sales_hash self ->
  check self fs = (self, fs, Unchanged).
Proof.
  intros Hp Hs. unfold process_files.
  rewrite !bool_decide_eq_false_2 by (intros Hne; apply Hne; assumption).
  simpl. destruct self; reflexivity.
Qed.

Lemma check_changed (self : CSVChangeHandler) (fs : gmap string string) :
  hash fs (products_file self) ≠ products_hash self
  \/ hash fs (sales_file self) ≠ sales_hash self ->
  check self fs
  = (set_hashes self (hash fs (products_file self)) (hash fs (sales_file self)),
     (pass self fs).1,
     match (pass self fs).2 with
     | None => Updated
     | Some e => Failed e
     end).
Proof.
  intros H. unfold process_files.
  destruct (decide (hash fs (products_file self) ≠ products_hash self)) as [Hp|Hp];
    destruct (decide (hash fs (sales_file self) ≠ sales_hash self)) as [Hs|Hs].
  - rewrite !bool_decide_eq_true_2 by assumption. reflexivity.
  - rewrite bool_decide_eq_true_2 by assumption.
    rewrite bool_decide_eq_false_2 by assumption.
    apply dec_stable in Hs. simpl. rewrite Hs. reflexivity.
  - rewrite bool_decide_eq_false_2 by assumption.
    rewrite bool_decide_eq_true_2 by assumption.
    apply dec_stable in Hp. simpl. rewrite Hp. reflexivity.
  - tauto.
Qed.

Lemma check_cases (self : CSVChangeHandler) (fs : gmap string string) :
  (hash fs (products_file self) = products_hash self /\
   hash fs (sales_file self) = sales_hash self)
  \/ (hash fs (products_file self) ≠ products_hash self
      \/ hash fs (sales_file self) ≠ sales_hash self).
Proof.
  destruct (decide (hash fs (products_file self) = products_hash self));
    destruct (decide (hash fs (sales_file self) = sales_hash self)); tauto.
Qed.

(** C9. The digest of a path that names no file is the empty string,
    and no error is raised; the digest of a file is the MD5 digest of
    its contents, so files of equal contents have equal digests. *)
Theorem missing_file_hash (fs : gmap string string) (path : string) :
  let hash := calculate_file_hash md5_hexdigest in
  (fs !! path = None -> hash fs path = "") /\
  (forall buf, fs !! path = Some buf -> hash fs path = md5_hexdigest buf) /\
  (forall fs' path' buf,
      fs !! path = Some buf -> fs' !! path' = Some buf ->
      hash fs path = hash fs' path').
Proof.
  cbv zeta.
  unfold calculate_file_hash. repeat split.
  - intros ->. reflexivity.
  - intros buf ->. reflexivity.
  - intros fs' path' buf -> ->. reflexivity.
Qed.

(** C6. A pass is a function of the contents of the two watched tables
    and of the rules: two states of the files that agree on both tables
    give the same output table and the same outcome, and a pass run on
    the files a pass has left gives these files again. A check leaves
    the engine as it was; a second check on the files the first has
    left writes nothing, and it is skipped when the output file is
    neither of the watched tables. *)
Theorem pass_idempotent (self : CSVChangeHandler) (fs : gmap string string) :
  let pass := run_pass DictReader DictWriter in
  let check := process_files md5_hexdigest DictReader DictWriter in
  pass self (pass self fs).1 = pass self fs /\
  (forall fs',
      fs' !! products_file self = fs !! products_file self ->
      fs' !! sales_file self = fs !! sales_file self ->
      (pass self fs').1 !! output_file self = (pass self fs).1 !! output_file self /\
      (pass self fs').2 = (pass self fs).2) /\
  pricing_engine (check self fs).1.1 = pricing_engine self /\
  (check (check self fs).1.1 (check self fs).1.2).1.2 = (check self fs).1.2 /\
  (output_file self ≠ products_file self ->
   output_file self ≠ sales_file self ->
   check (check self fs).1.1 (check self fs).1.2
   = ((check self fs).1.1, (check self fs).1.2, Unchanged)).
Proof.
  cbv zeta.
  split; [apply pass_twice|].
  split; [intros fs' Hp Hs; apply pass_agree; assumption|].
  destruct (check_cases self fs) as [[Hp Hs]|Hch].
  - rewrite (check_unchanged self fs Hp Hs). cbn [fst snd].
    rewrite (check_unchanged self fs Hp Hs). auto.
  - rewrite (check_changed self fs Hch). cbn [fst snd].
    set (self' := set_hashes self (hash fs (products_file self)) (hash fs (sales_file self))).
    split; [reflexivity|].
    assert (output_file self ≠ products_file self ->
            output_file self ≠ sales_file self ->
            check self' (pass self fs).1 = (self', (pass self fs).1, Unchanged)) as Hskip.
    { intros Hop Hos. apply check_unchanged; simpl; apply hash_agree, pass_other; assumption. }
    split; [|exact Hskip].
    destruct (check_cases self' (pass self fs).1) as [[Hp Hs]|Hch'].
    + rewrite (check_unchanged self' _ Hp Hs). reflexivity.
    + rewrite (check_changed self' _ Hch'). cbn [fst snd].
      change (pass self' (pass self fs).1) with (pass self (pass self fs).1).
      rewrite pass_twice. reflexivity.
Qed.

(** C10. After a check both stored digests are the digests of the two
    watched tables as the check found them, whatever the outcome, and
    the paths are kept. A pass runs exactly when one of the two digests
    differs from the stored one; its error, if any, is reported and the
    digests stay refreshed, so a later check on files whose watched
    tables are unchanged runs no pass. When the output file is neither
    watched table, the stored digests are also those of the files the
    check leaves. *)
Theorem fingerprints_refreshed (self : CSVChangeHandler) (fs : gmap string string) :
  let hash := calculate_file_hash md5_hexdigest in
  let pass := run_pass DictReader DictWriter in
  let check := process_files md5_hexdigest DictReader DictWriter in
  products_hash (check self fs).1.1 = hash fs (products_file self) /\
  sales_hash (check self fs).1.1 = hash fs (sales_file self) /\
  (products_file (check self fs).1.1 = products_file self /\
   sales_file (check self fs).1.1 = sales_file self /\
   output_file (check self fs).1.1 = output_file self) /\
  ((check self fs).2 ≠ Unchanged <->
   hash fs (products_file self) ≠ products_hash self
   \/ hash fs (sales_file self) ≠ sales_hash self) /\
  ((check self fs).2 = Unchanged -> (check self fs).1.2 = fs) /\
  ((check self fs).2 ≠ Unchanged ->
   (check self fs).1.2 = (pass self fs).1 /\
   (check self fs).2 = match (pass self fs).2 with
                        | None => Updated
                        | Some e => Failed e
                        end) /\
  (forall fs',
      fs' !! products_file self = fs !! products_file self ->
      fs' !! sales_file self = fs !! sales_file self ->
      check (check self fs).1.1 fs' = ((check self fs).1.1, fs', Unchanged)) /\
  (output_file self ≠ products_file self ->
   output_file self ≠ sales_file self ->
   products_hash (check self fs).1.1
   = hash (check self fs).1.2 (products_file self) /\
   sales_hash (check self fs).1.1
   = hash (check self fs).1.2 (sales_file self)).
Proof.
  cbv zeta.
  destruct (check_cases self fs) as [[Hp Hs]|Hch].
  - rewrite (check_unchanged self fs Hp Hs). cbn [fst snd].
    split; [congruence|]. split; [congruence|]. split; [auto|].
    split; [split; [congruence|tauto]|].
    split; [reflexivity|]. split; [congruence|].
    split.
    + intros fs' Hp' Hs'. apply check_unchanged.
      * rewrite <- Hp. apply hash_agree. exact Hp'.
      * rewrite <- Hs. apply hash_agree. exact Hs'.
    + intros _ _. split; congruence.
  - rewrite (check_changed self fs Hch). cbn [fst snd].
    split; [reflexivity|]. split; [reflexivity|]. split; [auto|].
    split; [split; [intros _; exact Hch | intros _; destruct (pass self fs).2; discriminate]|].
    split; [destruct (pass self fs).2; discriminate|].
    split; [intros _; split; reflexivity|].
    split.
    + intros fs' Hp' Hs'. apply check_unchanged; simpl; apply hash_agree; assumption.
    + intros Hop Hos. simpl.
      split; apply hash_agree; symmetry; apply pass_other; assumption.
Qed.

Lemma results_can_be_written (self : PricingEngine)
    (sales_data : gmap (option string) (gmap string (option string)))
    (rows : list (gmap string (option string))) (items : list (gmap string value)) :
  Forall2 (fun row result => process_row self sales_data row = Ok result) rows items ->
  Forall (fun item => is_Ok (output_row item)) items.
Proof.
  induction 1 as [|row item rows items Hrow _ IH]; constructor; [|exact IH].
  eapply output_row_ok. exact Hrow.
Qed.


(** X1. The constructor stores the digests of the files as they are and
    then checks them: the check finds both digests equal to the stored
    ones, so constructing a handler runs no pass and writes nothing. *)
Theorem new_handler_runs_no_pass (products_file sales_file output_file : string)
    (engine : PricingEngine) (fs : gmap string string) :
  let hash := calculate_file_hash md5_hexdigest in
  new_handler md5_hexdigest DictReader DictWriter
    products_file sales_file output_file engine fs
  = ({| products_file := products_file;
        sales_file := sales_file;
        output_file := output_file;
        pricing_engine := engine;
        products_hash := hash fs products_file;
        sales_hash := hash fs sales_file |},
     fs, Unchanged).
Proof.
  cbv zeta. unfold new_handler. apply check_unchanged; reflexivity. Qed.

End PassProperties.


(** ** Evaluation of readable products *)

Lemma should_apply_readable (rule : PricingRule) (product sales_data : gmap string value)
    (s q : Z) :
  stock product = Ok s -> quantity_sold sales_data = Ok q ->
  should_apply rule product sales_data
  = Ok match class_of rule with
       | LowStockHighDemand => (s <? 20) && (q >? 30)
       | DeadStock => (s >? 200) && (q =? 0)
       | OverstockedInventory => (s >? 100) && (q <? 20)
       | MinimumProfit => true
       end.
Proof.
  intros Hs Hq. unfold should_apply, LowStockHighDemandRule.should_apply,
    DeadStockRule.should_apply, OverstockedInventoryRule.should_apply,
    MinimumProfitRule.should_apply.
  destruct (class_of rule); rewrite ?Hs; simpl; try reflexivity;
    match goal with |- context [if ?b then _ else _] => destruct b end;
    simpl; rewrite ?Hq; reflexivity.
Qed.

Lemma tier_apply_readable (rule : PricingRule) (product sales_data : gmap string value)
    (cur : spec_float) :
  current_price product = Ok cur ->
  is_minimum_profit rule = false ->
  apply rule product sales_data
  = Ok (Float.mul cur match class_of rule with
                      | LowStockHighDemand => lit_1_15
                      | DeadStock => lit_0_7
                      | _ => lit_0_9
                      end).
Proof.
  intros Hcur. unfold is_minimum_profit, apply, LowStockHighDemandRule.apply,
    DeadStockRule.apply, OverstockedInventoryRule.apply.
  destruct (class_of rule); try discriminate; intros _;
    rewrite scale_current_price_unfold, Hcur; reflexivity.
Qed.

Lemma scan_readable (rs : list PricingRule) (product sales_data result : gmap string value)
    (s q : Z) (cur : spec_float) :
  stock product = Ok s -> quantity_sold sales_data = Ok q ->
  current_price product = Ok cur ->
  is_Ok (scan rs product sales_data result).
Proof.
  intros Hs Hq Hcur. induction rs as [|rule rs IH]; simpl; [eexists; reflexivity|].
  destruct (is_minimum_profit rule) eqn:Hmin; [exact IH|].
  rewrite (should_apply_readable rule product sales_data s q Hs Hq). simpl.
  match goal with |- context [if ?b then _ else _] => destruct b end; [|exact IH].
  rewrite (tier_apply_readable rule product sales_data cur Hcur Hmin). simpl.
  eexists. reflexivity.
Qed.

(** X3. An evaluation raises only on what it cannot read: when the
    stock, the current price and the cost price of the product and the
    quantity of the sales record can be read, [process_product]
    returns a decision, whatever the rules of the engine. *)
Theorem readable_product_evaluates (self : PricingEngine)
    (product sales_data : gmap string value) (s q : Z) (cur c : spec_float) :
  stock product = Ok s ->
  quantity_sold sales_data = Ok q ->
  current_price product = Ok cur ->
  cost_price product = Ok c ->
  exists p, 
    process_product self product sales_data
    = Ok (<["new_price" := VFloat (Float.round p 2)]>
            (<["old_price" := VFloat cur]> product)).
Proof.
  intros Hs Hq Hcur Hc.
  destruct (scan_readable (rules self) product sales_data
              (<["old_price" := VFloat cur]> product) s q cur Hs Hq Hcur)
    as [[r applied] Hscan].
  assert (exists p, phase1 self product sales_data
                    = Ok (<["new_price" := VFloat p]> (<["old_price" := VFloat cur]> product)))
    as [p H1].
  { rewrite phase1_unfold, Hcur. simpl. rewrite Hscan. simpl.
    apply scan_spec in Hscan
      as [(-> & pre & rule & post & p & _ & _ & _ & _ & ->)|(-> & _ & ->)]; eauto. }
  set (r1 := <["new_price" := VFloat p]> (<["old_price" := VFloat cur]> product)) in *.
  assert (exists q', phase2 self sales_data r1
                     = Ok (<["new_price" := VFloat q']> (<["old_price" := VFloat cur]> product)))
    as [q' H2].
  { unfold phase2. destruct (filter _ (rules self)) as [|rule l] eqn:Ef.
    - exists p. reflexivity.
    - assert (is_minimum_profit rule = true) as Hrule.
      { assert (rule ∈ filter (fun r => is_minimum_profit r = true) (rules self)) as Hin
          by (rewrite Ef; apply elem_of_cons; auto).
        apply list_elem_of_filter in Hin as [Hin _]. exact Hin. }
      rewrite (apply_minimum_profit rule _ _ Hrule).
      assert (MinimumProfitRule.apply r1 sales_data
              = Ok (Float.max p (Float.mul c lit_1_2))) as ->.
      { apply (minimum_profit_apply_spec r1 sales_data p); [apply lookup_insert_eq|].
        exists c. split; [|split; [|reflexivity]].
        - unfold cost_price, getitem in *. unfold r1.
          rewrite !lookup_insert_ne by done. exact Hc.
        - unfold current_price, getitem in Hcur. unfold r1.
          rewrite !lookup_insert_ne by done.
          destruct (product !! "current_price"); [eauto|discriminate]. }
      simpl. eexists. unfold r1. rewrite insert_insert_eq. reflexivity. }
  exists q'. apply process_product_shape. exists cur, p, q'. auto.
Qed.

Lemma phase2_standard (sales_data product : gmap string value) (old p c : spec_float) :
  cost_price product = Ok c ->
  current_price product = Ok old ->
  phase2 standard_engine sales_data
    (<["new_price" := VFloat p]> (<["old_price" := VFloat old]> product))
  = Ok (<["new_price" := VFloat (Float.max p (Float.mul c lit_1_2))]>
          (<["old_price" := VFloat old]> product)).
Proof.
  intros Hc Hcur. rewrite (phase2_installed _ _ _ standard_margin_installed).
  assert (MinimumProfitRule.apply
            (<["new_price" := VFloat p]> (<["old_price" := VFloat old]> product)) sales_data
          = Ok (Float.max p (Float.mul c lit_1_2))) as ->.
  { apply (minimum_profit_apply_spec _ sales_data p); [apply lookup_insert_eq|].
    exists c. split; [|split; [|reflexivity]].
    - unfold cost_price, getitem in *. rewrite !lookup_insert_ne by done. exact Hc.
    - unfold current_price, getitem in Hcur. rewrite !lookup_insert_ne by done.
      destruct (product !! "current_price"); [eauto|discriminate]. }
  simpl. rewrite insert_insert_eq. reflexivity.
Qed.

Lemma round_step_price (product : gmap string value) (old q : spec_float) :
  round_step (<["new_price" := VFloat q]> (<["old_price" := VFloat old]> product))
  = Ok (<["new_price" := VFloat (Float.round q 2)]> (<["old_price" := VFloat old]> product)).
Proof.
  unfold round_step, getitem. rewrite lookup_insert_eq. simpl.
  rewrite insert_insert_eq. reflexivity.
Qed.

(** X4. The decision of the standard engine in closed form: for a
    product whose stock [s], current price and cost price can be read
    and a sales record whose quantity [q] can be read, the new price is
    [round(max(t, cost_price * 1.2), 2)], where [t] is the current
    price times 1.15 if [s < 20] and [q > 30], times 0.7 if [s > 200]
    and [q = 0], times 0.9 if [s > 100] and [q < 20], and the current
    price otherwise; the old price is the current price. *)
Theorem standard_price (product sales_data : gmap string value)
    (s q : Z) (cur c : spec_float) :
  stock product = Ok s ->
  quantity_sold sales_data = Ok q ->
  current_price product = Ok cur ->
  cost_price product = Ok c ->
  process_product standard_engine product sales_data
  = Ok (<["new_price"
          := VFloat (Float.round (Float.max (tier_price cur s q) (Float.mul c lit_1_2)) 2)]>
          (<["old_price" := VFloat cur]> product)).
Proof.
  intros Hs Hq Hcur Hc. unfold process_product.
  assert (phase1 standard_engine product sales_data
          = Ok (<["new_price" := VFloat (tier_price cur s q)]>
                  (<["old_price" := VFloat cur]> product))) as ->.
  { rewrite phase1_unfold, Hcur, standard_rules. simpl.
    rewrite !(should_apply_readable _ product sales_data s q Hs Hq).
    rewrite !(tier_apply_readable _ product sales_data cur Hcur) by reflexivity.
    unfold tier_price. simpl.
    destruct ((s <? 20) && (q >? 30)); [reflexivity|].
    destruct ((s >? 200) && (q =? 0)); [reflexivity|].
    destruct ((s >? 100) && (q <? 20)); reflexivity. }
  simpl. rewrite (phase2_standard sales_data product cur _ c Hc Hcur). simpl.
  apply round_step_price.
Qed.

(** X5. The sales record is read only when the stock calls for it: for
    a stock between 20 and 100 no rule of the standard engine reads the
    quantity sold, so the evaluation returns for any sales record, also
    one whose quantity cannot be read, and the new price is
    [round(max(current_price, cost_price * 1.2), 2)]. *)
Theorem mid_stock_ignores_sales (product sales_data : gmap string value)
    (s : Z) (cur c : spec_float) :
  stock product = Ok s ->
  20 <= s <= 100 ->
  current_price product = Ok cur ->
  cost_price product = Ok c ->
  process_product standard_engine product sales_data
  = Ok (<["new_price" := VFloat (Float.round (Float.max cur (Float.mul c lit_1_2)) 2)]>
          (<["old_price" := VFloat cur]> product)).
Proof.
  intros Hs Hrange Hcur Hc. unfold process_product.
  assert (phase1 standard_engine product sales_data
          = Ok (<["new_price" := VFloat cur]> (<["old_price" := VFloat cur]> product))) as ->.
  { rewrite phase1_unfold, Hcur, standard_rules. simpl.
    unfold should_apply. simpl.
    unfold LowStockHighDemandRule.should_apply, DeadStockRule.should_apply,
      OverstockedInventoryRule.should_apply.
    rewrite Hs. simpl.
    replace (s <? 20) with false by (symmetry; apply Z.ltb_ge; lia).
    replace (s >? 200) with false by (symmetry; rewrite Z.gtb_ltb; apply Z.ltb_ge; lia).
    replace (s >? 100) with false by (symmetry; rewrite Z.gtb_ltb; apply Z.ltb_ge; lia).
    reflexivity. }
  simpl. rewrite (phase2_standard sales_data product cur _ c Hc Hcur). simpl.
  apply round_step_price.
Qed.

(** ** How the tier predicates overlap *)

Lemma dead_stock_overstocked (product sales_data : gmap string value) :
  DeadStockRule.should_apply product sales_data = Ok true ->
  OverstockedInventoryRule.should_apply product sales_data = Ok true.
Proof.
  unfold DeadStockRule.should_apply, OverstockedInventoryRule.should_apply.
  destruct (stock product) as [s|e]; simpl; [|discriminate].
  destruct (s >? 200) eqn:Hs; [|discriminate].
  destruct (quantity_sold sales_data) as [q|e]; simpl; [|discriminate].
  intros [= Hq]. apply Z.eqb_eq in Hq. subst q.
  rewrite Z.gtb_ltb in Hs. apply Z.ltb_lt in Hs.
  replace (s >? 100) with true by (symmetry; rewrite Z.gtb_ltb; apply Z.ltb_lt; lia).
  reflexivity.
Qed.

Lemma scarcity_excludes (product sales_data : gmap string value) :
  LowStockHighDemandRule.should_apply product sales_data = Ok true ->
  DeadStockRule.should_apply product sales_data = Ok false /\
  OverstockedInventoryRule.should_apply product sales_data = Ok false.
Proof.
  unfold LowStockHighDemandRule.should_apply, DeadStockRule.should_apply,
    OverstockedInventoryRule.should_apply.
  destruct (stock product) as [s|e]; simpl; [|discriminate].
  destruct (s <? 20) eqn:Hs; [|discriminate]. intros _.
  apply Z.ltb_lt in Hs.
  replace (s >? 200) with false by (symmetry; rewrite Z.gtb_ltb; apply Z.ltb_ge; lia).
  replace (s >? 100) with false by (symmetry; rewrite Z.gtb_ltb; apply Z.ltb_ge; lia).
  split; reflexivity.
Qed.

(** X6. The predicates of the tier rules are not all exclusive: where
    the dead-stock predicate holds the overstock predicate holds too,
    while the scarcity predicate excludes both. It is the order of the
    rules that lets the dead-stock rule act: a dead-stock rule that
    comes after an overstock rule in the engine is never the rule
    applied. *)
Theorem dead_stock_needs_priority (self : PricingEngine)
    (product sales_data : gmap string value) :
  (DeadStockRule.should_apply product sales_data = Ok true ->
   OverstockedInventoryRule.should_apply product sales_data = Ok true) /\
  (LowStockHighDemandRule.should_apply product sales_data = Ok true ->
   DeadStockRule.should_apply product sales_data = Ok false /\
   OverstockedInventoryRule.should_apply product sales_data = Ok false) /\
  (forall pre rule post other,
      rules self = pre ++ rule :: post ->
      class_of rule = DeadStock ->
      other ∈ pre -> class_of other = OverstockedInventory ->
      Forall (passes_over product sales_data) pre ->
      ~ fires product sales_data rule).
Proof.
  split; [apply dead_stock_overstocked|]. split; [apply scarcity_excludes|].
  intros pre rule post other _ Hrule Hin Hother Hpre [_ Hfires].
  rewrite Forall_forall in Hpre. destruct (Hpre other Hin) as [Hmin|Hpass].
  - unfold is_minimum_profit in Hmin. apply bool_decide_eq_true in Hmin. congruence.
  - unfold should_apply in Hfires, Hpass. rewrite Hrule in Hfires. rewrite Hother in Hpass.
    apply dead_stock_overstocked in Hfires. congruence.
Qed.

(** ** The columns an evaluation reads *)

Lemma same_inputs_sym (product product' : gmap string value) :
  same_inputs product product' -> same_inputs product' product.
Proof. intros (H1 & H2 & H3). repeat split; congruence. Qed.

Lemma same_stock (product product' : gmap string value) :
  same_inputs product product' -> stock product = stock product'.
Proof. intros (H & _). unfold stock, getitem. rewrite H. reflexivity. Qed.

Lemma same_current_price (product product' : gmap string value) :
  same_inputs product product' -> current_price product = current_price product'.
Proof. intros (_ & H & _). unfold current_price, getitem. rewrite H. reflexivity. Qed.

Lemma same_cost_price (product product' : gmap string value) :
  same_inputs product product' -> cost_price product = cost_price product'.
Proof. intros (_ & _ & H). unfold cost_price, getitem. rewrite H. reflexivity. Qed.

Lemma same_should_apply (rule : PricingRule) (product product' sales_data : gmap string value) :
  same_inputs product product' ->
  should_apply rule product sales_data = should_apply rule product' sales_data.
Proof.
  intros H. unfold should_apply, LowStockHighDemandRule.should_apply,
    DeadStockRule.should_apply, OverstockedInventoryRule.should_apply,
    MinimumProfitRule.should_apply.
  rewrite (same_stock _ _ H). reflexivity.
Qed.

Lemma same_tier_apply (rule : PricingRule) (product product' sales_data : gmap string value) :
  same_inputs product product' ->
  is_minimum_profit rule = false ->
  apply rule product sales_data = apply rule product' sales_data.
Proof.
  intros H. unfold is_minimum_profit, apply, LowStockHighDemandRule.apply,
    DeadStockRule.apply, OverstockedInventoryRule.apply.
  destruct (class_of rule); try discriminate; intros _;
    rewrite !scale_current_price_unfold, (same_current_price _ _ H); reflexivity.
Qed.

Lemma same_passes_over (rule : PricingRule) (product product' sales_data : gmap string value) :
  same_inputs product product' ->
  passes_over product sales_data rule -> passes_over product' sales_data rule.
Proof.
  intros H [Hm|Hs]; [left; exact Hm|right].
  rewrite <- (same_should_apply rule product product' sales_data H). exact Hs.
Qed.

Lemma same_process_product (self : PricingEngine)
    (product product' sales_data : gmap string value) (old x : spec_float) :
  same_inputs product product' ->
  process_product self product sales_data
  = Ok (<["new_price" := VFloat x]> (<["old_price" := VFloat old]> product)) ->
  process_product self product' sales_data
  = Ok (<["new_price" := VFloat x]> (<["old_price" := VFloat old]> product')).
Proof.
  intros Hsame H.
  apply process_product_shape in H as (old' & p & q & Hold & H1 & H2 & E).
  assert (old' = old) as ->.
  { apply (f_equal (fun m => m !! "old_price")) in E.
    rewrite !(lookup_insert_ne _ "new_price" "old_price") in E by done.
    rewrite !lookup_insert_eq in E. congruence. }
  assert (Float.round q 2 = x) as Hx.
  { apply (f_equal (fun m => m !! "new_price")) in E.
    rewrite !lookup_insert_eq in E. congruence. }
  apply process_product_shape. exists old, p, q.
  split; [rewrite <- (same_current_price _ _ Hsame); exact Hold|].
  split; [|split; [|rewrite Hx; reflexivity]].
  - apply phase1_spec. exists old.
    split; [rewrite <- (same_current_price _ _ Hsame); exact Hold|].
    apply phase1_spec in H1
      as (old' & Hold' & [(pre & rule & post & p' & Hrs & Hpre & Hr & Hp & E1)|(Hall & E1)]);
      (assert (old' = old) as -> by congruence).
    + left. exists pre, rule, post, p'.
      apply (f_equal (fun m => m !! "new_price")) in E1.
      rewrite !lookup_insert_eq in E1. injection E1 as ->.
      split; [exact Hrs|]. split.
      { eapply Forall_impl; [exact Hpre|]. intros r. apply same_passes_over. exact Hsame. }
      split.
      { destruct Hr as [Hm Hs]. split; [exact Hm|].
        rewrite <- (same_should_apply rule product product' sales_data Hsame). exact Hs. }
      split; [|reflexivity].
      rewrite <- (same_tier_apply rule product product' sales_data Hsame); [exact Hp|apply Hr].
    + right. apply (f_equal (fun m => m !! "new_price")) in E1.
      rewrite !lookup_insert_eq in E1. injection E1 as ->.
      split; [|reflexivity].
      eapply Forall_impl; [exact Hall|]. intros r. apply same_passes_over. exact Hsame.
  - unfold phase2 in *. destruct (filter _ (rules self)) as [|rule l] eqn:Ef.
    + injection H2 as H2. apply (f_equal (fun m => m !! "new_price")) in H2.
      rewrite !lookup_insert_eq in H2. injection H2 as ->. reflexivity.
    + assert (is_minimum_profit rule = true) as Hrule.
      { assert (rule ∈ filter (fun r => is_minimum_profit r = true) (rules self)) as Hin
          by (rewrite Ef; apply elem_of_cons; auto).
        apply list_elem_of_filter in Hin as [Hin _]. exact Hin. }
      rewrite (apply_minimum_profit rule _ _ Hrule) in H2.
      rewrite (apply_minimum_profit rule _ _ Hrule).
      apply bind_Ok in H2 as (q' & Hq' & H2).
      injection H2 as H2. apply (f_equal (fun m => m !! "new_price")) in H2.
      rewrite !lookup_insert_eq in H2. injection H2 as ->.
      apply (minimum_profit_apply_spec _ _ p q (lookup_insert_eq _ _ _)) in Hq'
        as (c & Hc & Hcur & ->).
      assert (MinimumProfitRule.apply
                (<["new_price" := VFloat p]> (<["old_price" := VFloat old]> product'))
                sales_data
              = Ok (Float.max p (Float.mul c lit_1_2))) as ->.
      { apply (minimum_profit_apply_spec _ _ p _ (lookup_insert_eq _ _ _)).
        exists c. destruct Hsame as (_ & Hs2 & Hs3).
        split; [|split; [|reflexivity]].
        - unfold cost_price, getitem in *. rewrite !lookup_insert_ne in * by done.
          rewrite <- Hs3. exact Hc.
        - rewrite !lookup_insert_ne in * by done. rewrite <- Hs2. exact Hcur. }
      simpl. rewrite insert_insert_eq. reflexivity.
Qed.

(** X7. An evaluation reads three cells of the product and nothing
    else: two products with the same [stock], [current_price] and
    [cost_price] cells get the same old and new price from any engine,
    whatever their SKU and their other columns, and if the evaluation
    of one raises so does that of the other. *)
Theorem other_columns_ignored (self : PricingEngine)
    (product product' sales_data : gmap string value) :
  same_inputs product product' ->
  (forall result,
      process_product self product sales_data = Ok result ->
      exists old x,
        result = <["new_price" := VFloat x]> (<["old_price" := VFloat old]> product) /\
        process_product self product' sales_data
        = Ok (<["new_price" := VFloat x]> (<["old_price" := VFloat old]> product'))) /\
  (is_Raise (process_product self product sales_data) ->
   is_Raise (process_product self product' sales_data)).
Proof.
  intros Hsame. split.
  - intros result H. pose proof H as Hshape.
    apply process_product_shape in Hshape as (old & p & q & _ & _ & _ & ->).
    exists old, (Float.round q 2). split; [reflexivity|].
    eapply same_process_product; eassumption.
  - intros [e He].
    destruct (process_product self product' sales_data) as [result'|e'] eqn:H';
      [|eexists; reflexivity].
    pose proof H' as Hshape.
    apply process_product_shape in Hshape as (old & p & q & _ & _ & _ & ->).
    apply (same_process_product self product' product sales_data old _
             (same_inputs_sym _ _ Hsame)) in H'.
    congruence.
Qed.

(** ** Removing rules *)

Lemma scan_skips_margin (rs : list PricingRule)
    (product sales_data result : gmap string value) :
  scan (filter (fun rule => class_of rule ≠ MinimumProfit) rs) product sales_data result
  = scan rs product sales_data result.
Proof.
  induction rs as [|rule rs IH]; [reflexivity|].
  rewrite filter_cons. destruct (decide (class_of rule ≠ MinimumProfit)) as [Hne|Heq]; simpl.
  - rewrite IH. reflexivity.
  - apply dec_stable in Heq. unfold is_minimum_profit.
    rewrite (bool_decide_eq_true_2 _ Heq). exact IH.
Qed.

Lemma no_margin_after_remove (self : PricingEngine) :
  filter (fun r => is_minimum_profit r = true) (rules (remove_rule self MinimumProfit)) = [].
Proof.
  simpl. induction (rules self) as [|rule rs IH]; [reflexivity|].
  rewrite filter_cons. destruct (decide (class_of rule ≠ MinimumProfit)) as [Hne|Heq];
    [|exact IH].
  rewrite filter_cons. destruct (decide (is_minimum_profit rule = true)) as [Hm|_];
    [|exact IH].
  unfold is_minimum_profit in Hm. apply bool_decide_eq_true in Hm. contradiction.
Qed.

(** X8. Removing the minimum profit rule drops the floor and leaves
    the tier selection as it was: the evaluation is phase 1 of the
    former engine followed by the rounding, the cost price is no longer
    read, and the new price is [round(p, 2)] for the price [p] of
    phase 1. *)
Theorem without_margin_rule (self : PricingEngine) (product sales_data : gmap string value) :
  process_product (remove_rule self MinimumProfit) product sales_data
  = phase1 self product sales_data ≫= round_step /\
  ~ margin_installed (remove_rule self MinimumProfit) /\
  (forall cur p,
      current_price product = Ok cur ->
      phase1 self product sales_data
      = Ok (<["new_price" := VFloat p]> (<["old_price" := VFloat cur]> product)) ->
      process_product (remove_rule self MinimumProfit) product sales_data
      = Ok (<["new_price" := VFloat (Float.round p 2)]>
              (<["old_price" := VFloat cur]> product))).
Proof.
  assert (process_product (remove_rule self MinimumProfit) product sales_data
          = phase1 self product sales_data ≫= round_step) as Heq.
  { unfold process_product.
    assert (phase1 (remove_rule self MinimumProfit) product sales_data
            = phase1 self product sales_data) as ->.
    { rewrite !phase1_unfold. simpl. destruct (current_price product); simpl; [|reflexivity].
      rewrite scan_skips_margin. reflexivity. }
    destruct (phase1 self product sales_data) as [r1|e]; simpl; [|reflexivity].
    unfold phase2. rewrite no_margin_after_remove. reflexivity. }
  split; [exact Heq|]. split.
  - intros (rule & Hin & Hmin).
    assert (rule ∈ filter (fun r => is_minimum_profit r = true)
                     (rules (remove_rule self MinimumProfit))) as Hf
      by (apply list_elem_of_filter; auto).
    rewrite no_margin_after_remove in Hf. apply elem_of_nil in Hf. exact Hf.
  - intros cur p _ H1. rewrite Heq, H1. simpl. apply round_step_price.
Qed.

Lemma filter_sort_insert (P : PricingRule -> Prop) `{!forall x, Decision (P x)}
    (rule : PricingRule) (l : list PricingRule) :
  ascending l ->
  filter P (sort_insert rule l)
  = if decide (P rule) then sort_insert rule (filter P l) else filter P l.
Proof.
  unfold ascending. induction 1 as [|other l Hl IH Hall]; cbn [sort_insert].
  - rewrite filter_cons, filter_nil. destruct (decide (P rule)); reflexivity.
  - destruct (rule_lt other rule) eqn:Hlt.
    + rewrite !filter_cons, IH.
      destruct (decide (P other)), (decide (P rule)); cbn [sort_insert];
        rewrite ?Hlt; reflexivity.
    + rewrite (filter_cons P rule). destruct (decide (P rule)) as [Hr|Hr]; [|reflexivity].
      rewrite !filter_cons. destruct (decide (P other)) as [Ho|Ho]; cbn [sort_insert].
      * rewrite Hlt. reflexivity.
      * symmetry. apply sort_insert_head.
        apply Forall_forall. intros x Hx. apply list_elem_of_filter in Hx as [_ Hx].
        rewrite Forall_forall in Hall. specialize (Hall x Hx).
        unfold rule_lt in Hlt. apply Z.ltb_ge in Hlt. lia.
Qed.

Lemma filter_sort (P : PricingRule -> Prop) `{!forall x, Decision (P x)}
    (l : list PricingRule) :
  filter P (sort l) = sort (filter P l).
Proof.
  induction l as [|rule l IH]; [reflexivity|]. cbn [sort].
  rewrite (filter_sort_insert P rule (sort l) (sort_ascending l)), IH, filter_cons.
  destruct (decide (P rule)); reflexivity.
Qed.

Lemma sort_ascending_id (l : list PricingRule) : ascending l -> sort l = l.
Proof.
  unfold ascending. induction 1 as [|rule l Hl IH Hall]; simpl; [reflexivity|].
  rewrite IH. apply sort_insert_head. exact Hall.
Qed.

(** X9. [remove_rule] and [add_rule] compose as expected on an engine
    whose rules are in ascending order: removing the class of a rule
    just added undoes the addition but for the rules of that class that
    were there, and removing another class commutes with the addition.
    After a removal no rule of the class is left, the other rules are
    kept, and the order stays ascending. *)
Theorem remove_rule_add_rule (self : PricingEngine) (rule : PricingRule) (cls : rule_class) :
  ascending (rules self) ->
  (cls = class_of rule -> remove_rule (add_rule self rule) cls = remove_rule self cls) /\
  (cls ≠ class_of rule ->
   remove_rule (add_rule self rule) cls = add_rule (remove_rule self cls) rule) /\
  (forall other, other ∈ rules (remove_rule self cls)
                 <-> other ∈ rules self /\ class_of other ≠ cls) /\
  ascending (rules (remove_rule self cls)).
Proof.
  intros Hasc.
  assert (forall l, ascending l ->
            sort (filter (fun r => class_of r ≠ cls) l)
            = filter (fun r => class_of r ≠ cls) l) as Hid
    by (intros l Hl; apply sort_ascending_id, filter_ascending; exact Hl).
  split; [|split; [|split]].
  - intros ->. unfold remove_rule, add_rule. simpl. f_equal.
    rewrite filter_sort, filter_app, filter_cons.
    destruct (decide (class_of rule ≠ class_of rule)) as [Hne|_]; [contradiction|].
    rewrite filter_nil, app_nil_r. apply Hid. exact Hasc.
  - intros Hne. unfold remove_rule, add_rule. simpl. f_equal.
    rewrite filter_sort, filter_app, filter_cons.
    destruct (decide (class_of rule ≠ cls)) as [_|Heq];
      [reflexivity|apply dec_stable in Heq; congruence].
  - intros other. simpl. rewrite list_elem_of_filter. tauto.
  - simpl. apply filter_ascending. exact Hasc.
Qed.

(** ** The order in which rules are added *)

Lemma add_rules_perm (l : list PricingRule) (self : PricingEngine) :
  rules (add_rules self l) ≡ₚ rules self ++ l.
Proof.
  unfold add_rules. revert self. induction l as [|rule l IH]; intros self; simpl.
  - rewrite app_nil_r. reflexivity.
  - rewrite IH. simpl. rewrite sort_perm, <- app_assoc. reflexivity.
Qed.

Lemma add_rules_ascending (l : list PricingRule) (self : PricingEngine) :
  ascending (rules self) -> ascending (rules (add_rules self l)).
Proof.
  unfold add_rules. revert self. induction l as [|rule l IH]; intros self H; simpl.
  - exact H.
  - apply IH. simpl. apply sort_ascending.
Qed.

(** X10. Rules of pairwise different priorities can be added in any
    order: two lists of such rules that are permutations of each other
    build the same engine, whose rules are the list in ascending order
    of priority. *)
Theorem add_rules_any_order (l1 l2 : list PricingRule) :
  l1 ≡ₚ l2 ->
  (forall r1 r2, r1 ∈ l1 -> r2 ∈ l1 -> priority r1 = priority r2 -> r1 = r2) ->
  add_rules new_engine l1 = add_rules new_engine l2 /\
  rules (add_rules new_engine l1) ≡ₚ l1 /\
  ascending (rules (add_rules new_engine l1)).
Proof.
  intros Hperm Hinj.
  assert (forall l, ascending (rules (add_rules new_engine l))) as Hasc
    by (intros l; apply add_rules_ascending; constructor).
  split; [|split; [apply (add_rules_perm l1 new_engine)|apply Hasc]].
  assert (rules (add_rules new_engine l1) = rules (add_rules new_engine l2)) as E.
  { apply (StronglySorted_unique_strong
             (fun rule other => priority rule <= priority other)).
    - intros r1 r2 H1 H2 Hle1 Hle2.
      apply (elem_of_Permutation_proper _ _ _ (add_rules_perm l1 new_engine)) in H1.
      apply (elem_of_Permutation_proper _ _ _ (add_rules_perm l2 new_engine)) in H2.
      simpl in H1, H2. apply (elem_of_Permutation_proper _ _ _ Hperm) in H2.
      apply Hinj; [assumption..|lia].
    - apply Hasc.
    - apply Hasc.
    - rewrite (add_rules_perm l1 new_engine), (add_rules_perm l2 new_engine). simpl.
      exact Hperm. }
  destruct (add_rules new_engine l1), (add_rules new_engine l2). simpl in E.
  rewrite E. reflexivity.
Qed.

(** X11. The minimum profit rule acts last whatever its priority:
    adding one, with any priority number, to an engine whose rules are
    in ascending order leaves phase 1 as it was, and phase 2 of the new
    engine applies the floor, replacing the working price by
    [max(price, cost_price * 1.2)]. *)
Theorem margin_priority_irrelevant (self : PricingEngine) (rule : PricingRule)
    (product sales_data : gmap string value) :
  class_of rule = MinimumProfit ->
  ascending (rules self) ->
  phase1 (add_rule self rule) product sales_data = phase1 self product sales_data /\
  (forall r1,
      phase2 (add_rule self rule) sales_data r1
      = q ← MinimumProfitRule.apply r1 sales_data; Ok (<["new_price" := VFloat q]> r1)).
Proof.
  intros Hcls Hasc. split.
  - rewrite !phase1_unfold. destruct (current_price product) as [old|e]; simpl; [|reflexivity].
    rewrite <- (scan_skips_margin (sort (rules self ++ [rule]))), filter_sort, filter_app,
      filter_cons.
    destruct (decide (class_of rule ≠ MinimumProfit)) as [Hne|_]; [contradiction|].
    rewrite filter_nil, app_nil_r, (sort_ascending_id _ (filter_ascending _ _ Hasc)),
      scan_skips_margin.
    reflexivity.
  - intros r1. apply phase2_installed. exists rule. split.
    + simpl. apply (elem_of_Permutation_proper _ _ _ (sort_perm _)).
      apply elem_of_app. right. apply list_elem_of_singleton. reflexivity.
    + unfold is_minimum_profit. apply bool_decide_eq_true_2. exact Hcls.
Qed.

(** ** The sales index *)

Lemma index_rows_lookup (rows : list (gmap string (option string)))
    (init idx : gmap (option string) (gmap string (option string))) (sku : option string) :
  index_rows rows init = Ok idx ->
  idx !! sku
  = match last (filter (fun row => row !! "sku" = Some sku) rows) with
    | Some row => Some row
    | None => init !! sku
    end.
Proof.
  revert init. induction rows as [|row rows IH]; intros init; simpl.
  - intros [= <-]. reflexivity.
  - unfold getitem. destruct (row !! "sku") as [k|] eqn:Ek; simpl; [|discriminate].
    intros H. rewrite (IH _ H), filter_cons.
    destruct (decide (row !! "sku" = Some sku)) as [Heq|Hne].
    + assert (k = sku) as -> by congruence.
      rewrite last_cons, lookup_insert_eq.
      destruct (last (filter _ rows)); reflexivity.
    + rewrite lookup_insert_ne by congruence. reflexivity.
Qed.

Lemma index_rows_ok (rows : list (gmap string (option string)))
    (init : gmap (option string) (gmap string (option string))) :
  Forall (fun row => is_Some (row !! "sku")) rows -> is_Ok (index_rows rows init).
Proof.
  intros H. revert init. induction H as [|row rows [k Hk] _ IH]; intros init; simpl.
  - eexists. reflexivity.
  - unfold getitem. rewrite Hk. simpl. apply IH.
Qed.

Lemma index_rows_raises (rows : list (gmap string (option string)))
    (init : gmap (option string) (gmap string (option string))) :
  Exists (fun row => row !! "sku" = None) rows ->
  index_rows rows init = Raise (KeyError "sku").
Proof.
  intros H. revert init. induction H as [row rows Hk|row rows _ IH]; intros init; simpl.
  - unfold getitem. rewrite Hk. reflexivity.
  - unfold getitem. destruct (row !! "sku"); simpl; [apply IH|reflexivity].
Qed.

Section FurtherPassProperties.

Variable md5_hexdigest : string -> string.
Variable DictReader : string -> list (gmap string (option string)).
Variable DictWriter : list string -> list (gmap string value) -> string.

(** X12. [load_sales_data] indexes the rows of the sales table by SKU,
    the last row of an SKU replacing the earlier ones: looking up an
    SKU gives the last row of the table with that SKU, and nothing when
    no row has it. It raises [FileNotFoundError] when the file is
    missing and [KeyError] for [sku] when a row has no such column. *)
Theorem sales_index_last_row_wins (fs : gmap string string) (file_path : string) :
  let load := load_sales_data DictReader in
  (fs !! file_path = None -> load fs file_path = Raise (FileNotFoundError file_path)) /\
  (forall text,
      fs !! file_path = Some text ->
      Exists (fun row => row !! "sku" = None) (DictReader text) ->
      load fs file_path = Raise (KeyError "sku")) /\
  (forall text,
      fs !! file_path = Some text ->
      Forall (fun row => is_Some (row !! "sku")) (DictReader text) ->
      exists sales_data,
        load fs file_path = Ok sales_data /\
        forall sku,
          sales_data !! sku
          = last (filter (fun row => row !! "sku" = Some sku) (DictReader text))).
Proof.
  cbv zeta. unfold load_sales_data, open_read. split; [|split].
  - intros ->. reflexivity.
  - intros text -> H. simpl. apply index_rows_raises. exact H.
  - intros text -> H. simpl.
    destruct (index_rows_ok (DictReader text) ∅ H) as [idx Hidx].
    exists idx. split; [exact Hidx|].
    intros sku. rewrite (index_rows_lookup _ _ _ sku Hidx), lookup_empty.
    destruct (last _); reflexivity.
Qed.

Lemma truncated_lookup (fs : gmap string string) (out path : string) :
  out ≠ path -> <[out := ""]> fs !! path = fs !! path.
Proof. intros H. apply lookup_insert_ne. exact H. Qed.

Lemma pass_without_sales (self : CSVChangeHandler) (fs : gmap string string) :
  output_file self ≠ sales_file self ->
  fs !! sales_file self = None ->
  run_pass DictReader DictWriter self fs
  = (<[output_file self := DictWriter fieldnames []]> fs,
     Some (FileNotFoundError (sales_file self))).
Proof.
  intros Hne Hmiss. unfold run_pass, write_output, process_products, load_sales_data, open_read.
  rewrite (truncated_lookup _ _ _ Hne), Hmiss. reflexivity.
Qed.

Lemma pass_without_products (self : CSVChangeHandler) (fs : gmap string string) :
  output_file self ≠ sales_file self ->
  output_file self ≠ products_file self ->
  is_Ok (load_sales_data DictReader fs (sales_file self)) ->
  fs !! products_file self = None ->
  run_pass DictReader DictWriter self fs
  = (<[output_file self := DictWriter fieldnames []]> fs,
     Some (FileNotFoundError (products_file self))).
Proof.
  intros Hs Hp [idx Hload] Hmiss.
  unfold run_pass, write_output, process_products.
  assert (load_sales_data DictReader (<[output_file self := ""]> fs) (sales_file self)
          = Ok idx) as ->.
  { unfold load_sales_data, open_read in *. rewrite (truncated_lookup _ _ _ Hs). exact Hload. }
  unfold open_read. rewrite (truncated_lookup _ _ _ Hp), Hmiss. reflexivity.
Qed.

(** X13. A watched table that has gone is noticed and empties the
    output: when the sales table is missing and a digest was stored for
    it, the check runs a pass, which fails with [FileNotFoundError] for
    the sales file before the products are read and leaves the output
    file with its header only; the same holds for a missing products
    table once the sales table loads. The stored digest becomes the
    empty one. *)
Theorem deleted_table_empties_output (self : CSVChangeHandler) (fs : gmap string string) :
  let hash := calculate_file_hash md5_hexdigest in
  let check := process_files md5_hexdigest DictReader DictWriter in
  output_file self ≠ sales_file self ->
  output_file self ≠ products_file self ->
  (fs !! sales_file self = None ->
   sales_hash self ≠ "" ->
   check self fs
   = (set_hashes self (hash fs (products_file self)) "",
      <[output_file self := DictWriter fieldnames []]> fs,
      Failed (FileNotFoundError (sales_file self)))) /\
  (fs !! products_file self = None ->
   products_hash self ≠ "" ->
   is_Ok (load_sales_data DictReader fs (sales_file self)) ->
   check self fs
   = (set_hashes self "" (hash fs (sales_file self)),
      <[output_file self := DictWriter fieldnames []]> fs,
      Failed (FileNotFoundError (products_file self)))).
Proof.
  cbv zeta. intros Hs Hp. split.
  - intros Hmiss Hstored.
    assert (calculate_file_hash md5_hexdigest fs (sales_file self) = "") as Hh
      by (unfold calculate_file_hash; rewrite Hmiss; reflexivity).
    rewrite check_changed by (right; rewrite Hh; congruence).
    rewrite (pass_without_sales self fs Hs Hmiss), Hh. reflexivity.
  - intros Hmiss Hstored Hload.
    assert (calculate_file_hash md5_hexdigest fs (products_file self) = "") as Hh
      by (unfold calculate_file_hash; rewrite Hmiss; reflexivity).
    rewrite check_changed by (left; rewrite Hh; congruence).
    rewrite (pass_without_products self fs Hs Hp Hload Hmiss), Hh. reflexivity.
Qed.

Lemma process_rows_all (self : PricingEngine)
    (sales_data : gmap (option string) (gmap string (option string)))
    (rows : list (gmap string (option string))) :
  Forall (fun row => is_Ok (process_row self sales_data row)) rows ->
  (process_rows self sales_data rows).2 = None /\
  Forall2 (fun row result => process_row self sales_data row = Ok result)
          rows (process_rows self sales_data rows).1.
Proof.
  induction 1 as [|row rows [result Hrow] _ [IH1 IH2]]; simpl.
  - split; [reflexivity|constructor].
  - rewrite Hrow. simpl. split; [exact IH1|]. constructor; assumption.
Qed.

Lemma process_rows_complete (self : PricingEngine)
    (sales_data : gmap (option string) (gmap string (option string)))
    (rows : list (gmap string (option string))) :
  (process_rows self sales_data rows).2 = None ->
  Forall (fun row => is_Ok (process_row self sales_data row)) rows.
Proof.
  induction rows as [|row rows IH]; cbn [process_rows]; [constructor|].
  destruct (process_row self sales_data row) as [result|e] eqn:Hrow; cbn [fst snd];
    [|discriminate].
  intros H. constructor; [exists result; exact Hrow|apply IH; exact H].
Qed.

(** The row written for a product: its SKU cell and its two prices,
    with a dollar sign and two decimal places. *)
Lemma written_row (self : PricingEngine)
    (sales_data : gmap (option string) (gmap string (option string)))
    (product : gmap string (option string)) (result : gmap string value) :
  process_row self sales_data product = Ok result ->
  exists sku old new,
    product !! "sku" = Some sku /\
    current_price (to_dict product) = Ok old /\
    result !! "new_price" = Some (VFloat new) /\
    output_row result
    = Ok (<["sku" := cell_value sku]>
            (<["old_price" := VStr ("$" +:+ Float.format_2f old)]>
               (<["new_price" := VStr ("$" +:+ Float.format_2f new)]> ∅))).
Proof.
  unfold process_row. intros H. apply bind_Ok in H as (sku & Hsku & H).
  apply process_product_shape in H as (old & p & q & Hold & _ & _ & ->).
  unfold getitem in Hsku. destruct (product !! "sku") as [c|] eqn:E; [|discriminate].
  injection Hsku as ->.
  exists sku, old, (Float.round q 2).
  split; [reflexivity|]. split; [exact Hold|]. split; [apply lookup_insert_eq|].
  set (result := <["new_price" := VFloat (Float.round q 2)]>
                   (<["old_price" := VFloat old]> (to_dict product))).
  assert (result !! "sku" = Some (cell_value sku)) as Hs.
  { unfold result. rewrite lookup_insert_ne by done. rewrite lookup_insert_ne by done.
    rewrite to_dict_lookup, E. reflexivity. }
  assert (result !! "old_price" = Some (VFloat old)) as Ho.
  { unfold result. rewrite lookup_insert_ne by done. apply lookup_insert_eq. }
  assert (result !! "new_price" = Some (VFloat (Float.round q 2))) as Hn
    by apply lookup_insert_eq.
  unfold output_row, getitem. rewrite Hs. simpl. rewrite Ho. simpl. rewrite Hn. reflexivity.
Qed.

Lemma written_rows (self : PricingEngine)
    (sales_data : gmap (option string) (gmap string (option string)))
    (products : list (gmap string (option string)))
    (items rows : list (gmap string value)) :
  Forall2 (fun row result => process_row self sales_data row = Ok result) products items ->
  Forall2 (fun item row => output_row item = Ok row) items rows ->
  Forall2
    (fun product row =>
       exists sku old new result,
         product !! "sku" = Some sku /\
         current_price (to_dict product) = Ok old /\
         process_row self sales_data product = Ok result /\
         result !! "new_price" = Some (VFloat new) /\
         row = <["sku" := cell_value sku]>
                 (<["old_price" := VStr ("$" +:+ Float.format_2f old)]>
                    (<["new_price" := VStr ("$" +:+ Float.format_2f new)]> ∅)))
    products rows.
Proof.
  intros Hresults. revert rows.
  induction Hresults as [|product item products items Hrow _ IH]; intros rows Hrows.
  - apply Forall2_nil_inv_l in Hrows as ->. constructor.
  - apply Forall2_cons_inv_l in Hrows as (row & rows' & Hw & Hrows' & ->).
    constructor; [|apply IH; exact Hrows'].
    destruct (written_row _ _ _ _ Hrow) as (sku & old & new & Hsku & Hold & Hnew & Hout).
    exists sku, old, new, item. repeat split; try assumption. congruence.
Qed.

(** X14. A pass over tables that can be read writes one row per
    product, in the order of the products table: when the sales table
    loads and every row of the products table evaluates, the pass ends
    without error, touches no file but the output file, and the output
    holds, for each product in turn, its SKU, its current price as the
    old price and the new price of its decision, each price with a
    dollar sign and two decimal places. Conversely a pass that ends
    without error has evaluated every row. *)
Theorem complete_pass (self : CSVChangeHandler) (fs : gmap string string)
    (sales_data : gmap (option string) (gmap string (option string))) (text : string) :
  let pass := run_pass DictReader DictWriter in
  output_file self ≠ products_file self ->
  output_file self ≠ sales_file self ->
  load_sales_data DictReader fs (sales_file self) = Ok sales_data ->
  fs !! products_file self = Some text ->
  (Forall (fun row => is_Ok (process_row (pricing_engine self) sales_data row))
          (DictReader text) ->
   exists written,
     pass self fs = (<[output_file self := DictWriter fieldnames written]> fs, None) /\
     Forall2
       (fun product row =>
          exists sku old new result,
            product !! "sku" = Some sku /\
            current_price (to_dict product) = Ok old /\
            process_row (pricing_engine self) sales_data product = Ok result /\
            result !! "new_price" = Some (VFloat new) /\
            row = <["sku" := cell_value sku]>
                    (<["old_price" := VStr ("$" +:+ Float.format_2f old)]>
                       (<["new_price" := VStr ("$" +:+ Float.format_2f new)]> ∅)))
       (DictReader text) written) /\
  ((pass self fs).2 = None ->
   Forall (fun row => is_Ok (process_row (pricing_engine self) sales_data row))
          (DictReader text)) /\
  (forall path, path ≠ output_file self -> (pass self fs).1 !! path = fs !! path).
Proof.
  cbv zeta. intros Hop Hos Hload Htext.
  assert (process_products DictReader (products_file self) (sales_file self)
            (pricing_engine self) (<[output_file self := ""]> fs)
          = process_rows (pricing_engine self) sales_data (DictReader text)) as Hgen.
  { rewrite (products_agree _ _ _ _ (<[output_file self := ""]> fs) fs)
      by (apply lookup_insert_ne; assumption).
    unfold process_products, open_read. rewrite Hload, Htext. reflexivity. }
  split; [|split].
  - intros Hall.
    destruct (process_rows_all _ _ _ Hall) as [Hnone Hresults].
    destruct (write_rows_all _ (results_can_be_written _ _ _ _ Hresults)) as [Hnone' Hrows].
    exists (write_rows (process_rows (pricing_engine self) sales_data (DictReader text)).1).1.
    split.
    + unfold run_pass, write_output. rewrite Hgen, Hnone', Hnone. reflexivity.
    + eapply written_rows; eassumption.
  - intros Hnone. unfold run_pass, write_output in Hnone. rewrite Hgen in Hnone.
    cbn [snd] in Hnone. apply process_rows_complete.
    destruct (write_rows _).2; [discriminate|exact Hnone].
  - intros path Hne. unfold run_pass, write_output. cbn [fst].
    apply lookup_insert_ne. congruence.
Qed.

(** X15. An event never starts a loop: once a check has been made and
    the output file is neither watched table, any event delivered for
    the files the check has left, the one raised by the writing of the
    output file included, runs no pass and changes nothing. An event
    for a directory, or for a path that ends with the name of neither
    watched table, is ignored whatever the state of the tables. *)
Theorem on_modified_settles (self : CSVChangeHandler) (ev : event)
    (fs : gmap string string) :
  let check := process_files md5_hexdigest DictReader DictWriter in
  let notify := on_modified md5_hexdigest DictReader DictWriter in
  (output_file self ≠ products_file self ->
   output_file self ≠ sales_file self ->
   notify (check self fs).1.1 ev (check self fs).1.2
   = ((check self fs).1.1, (check self fs).1.2, Unchanged)) /\
  (is_directory ev = true -> notify self ev fs = (self, fs, Unchanged)) /\
  (endswith (src_path ev) (products_file self) = false ->
   endswith (src_path ev) (sales_file self) = false ->
   notify self ev fs = (self, fs, Unchanged)) /\
  (is_directory ev = false ->
   endswith (src_path ev) (products_file self) = true
   \/ endswith (src_path ev) (sales_file self) = true ->
   notify self ev fs = check self fs).
Proof.
  cbv zeta. split; [|split; [|split]].
  - intros Hop Hos.
    assert (process_files md5_hexdigest DictReader DictWriter
              (process_files md5_hexdigest DictReader DictWriter self fs).1.1
              (process_files md5_hexdigest DictReader DictWriter self fs).1.2
            = ((process_files md5_hexdigest DictReader DictWriter self fs).1.1,
               (process_files md5_hexdigest DictReader DictWriter self fs).1.2,
               Unchanged)) as Hskip.
    { destruct (check_cases md5_hexdigest self fs) as [[H1 H2]|Hch].
      - rewrite (check_unchanged _ _ _ self fs H1 H2). cbn [fst snd].
        apply check_unchanged; assumption.
      - rewrite (check_changed _ _ _ self fs Hch). cbn [fst snd].
        apply check_unchanged; simpl; apply hash_agree; apply pass_other; assumption. }
    unfold on_modified. destruct (negb (is_directory ev)); [|reflexivity].
    match goal with |- context [if ?b then _ else _] => destruct b end;
      [exact Hskip|reflexivity].
  - intros Hdir. unfold on_modified. rewrite Hdir. reflexivity.
  - intros Hp Hs. unfold on_modified. rewrite Hp, Hs.
    destruct (negb (is_directory ev)); reflexivity.
  - intros Hdir Hends. unfold on_modified. rewrite Hdir. simpl.
    destruct Hends as [->| ->]; [reflexivity|].
    rewrite orb_true_r. reflexivity.
Qed.
End FurtherPassProperties.

(** ** The minimum profit rule on its own *)

(** X16. What [MinimumProfitRule.apply] reads: with a cost price that
    can be read, the rule returns [max(new_price, cost_price * 1.2)]
    when the product has a new price and [max(current_price,
    cost_price * 1.2)] when it has none. The current price is looked up
    in both cases, the default of [get] being evaluated before the
    call: a product without a [current_price] raises [KeyError] even
    when its new price is set, while a current price that is no number
    does no harm then. *)
Theorem margin_rule_reads (product sales_data : gmap string value) (c : spec_float) :
  cost_price product = Ok c ->
  (forall v p,
      product !! "new_price" = Some v -> py_float v = Ok p ->
      is_Some (product !! "current_price") ->
      MinimumProfitRule.apply product sales_data = Ok (Float.max p (Float.mul c lit_1_2))) /\
  (forall cur,
      product !! "new_price" = None -> current_price product = Ok cur ->
      MinimumProfitRule.apply product sales_data
      = Ok (Float.max cur (Float.mul c lit_1_2))) /\
  (product !! "current_price" = None ->
   MinimumProfitRule.apply product sales_data = Raise (KeyError "current_price")).
Proof.
  intros Hc. unfold cost_price in Hc. unfold MinimumProfitRule.apply.
  destruct (getitem product "cost_price") as [w|e]; simpl in *; [|discriminate].
  rewrite Hc. simpl. unfold current_price, getitem, get.
  split; [|split].
  - intros v p Hnew Hp [d Hd]. rewrite Hd, Hnew. simpl. rewrite Hp. reflexivity.
  - intros cur Hnew. rewrite Hnew.
    destruct (product !! "current_price") as [d|]; simpl; [|discriminate].
    intros ->. reflexivity.
  - intros ->. reflexivity.
Qed.

(** ** When the quantity sold is read *)

(** X17. Outside the stock range 20 to 100 the standard rules read the
    quantity sold: for a product whose current price can be read and
    whose stock is below 20 or above 100, a sales record whose quantity
    cannot be read makes the evaluation raise the error of that
    reading, whatever the cost price. *)
Theorem unreadable_quantity_raises (product sales_data : gmap string value)
    (s : Z) (cur : spec_float) (e : exn) :
  stock product = Ok s ->
  s < 20 \/ 100 < s ->
  current_price product = Ok cur ->
  quantity_sold sales_data = Raise e ->
  process_product standard_engine product sales_data = Raise e.
Proof.
  intros Hs Hrange Hcur Hq. unfold process_product.
  assert (phase1 standard_engine product sales_data = Raise e) as ->; [|reflexivity].
  rewrite phase1_unfold, Hcur, standard_rules. simpl.
  unfold should_apply. simpl.
  unfold LowStockHighDemandRule.should_apply, DeadStockRule.should_apply,
    OverstockedInventoryRule.should_apply.
  rewrite Hs. simpl. destruct Hrange as [Hlow|Hhigh].
  - replace (s <? 20) with true by (symmetry; apply Z.ltb_lt; lia).
    rewrite Hq. reflexivity.
  - replace (s <? 20) with false by (symmetry; apply Z.ltb_ge; lia).
    simpl. destruct (s >? 200); [rewrite Hq; reflexivity|]. simpl.
    replace (s >? 100) with true by (symmetry; rewrite Z.gtb_ltb; apply Z.ltb_lt; lia).
    rewrite Hq. reflexivity.
Qed.

(** ** Instances of the theorems *)

Lemma tier_selection_witness :
  reachable standard_engine /\
  (phase1 standard_engine dead_stock_product dead_stock_sales
   = Ok (<["new_price" := VFloat (cents 700)]>
           (<["old_price" := VFloat (cents 1000)]> dead_stock_product)) <->
   exists old,
     current_price dead_stock_product = Ok old /\
     ((exists pre rule post p,
          rules standard_engine = pre ++ rule :: post /\
          Forall (passes_over dead_stock_product dead_stock_sales) pre /\
          fires dead_stock_product dead_stock_sales rule /\
          apply rule dead_stock_product dead_stock_sales = Ok p /\
          <["new_price" := VFloat (cents 700)]>
            (<["old_price" := VFloat (cents 1000)]> dead_stock_product)
          = <["new_price" := VFloat p]> (<["old_price" := VFloat old]> dead_stock_product) /\
          (forall other, other ∈ rules standard_engine ->
                         fires dead_stock_product dead_stock_sales other ->
                         priority rule <= priority other))
      \/ (Forall (passes_over dead_stock_product dead_stock_sales) (rules standard_engine) /\
          <["new_price" := VFloat (cents 700)]>
            (<["old_price" := VFloat (cents 1000)]> dead_stock_product)
          = <["new_price" := VFloat old]> (<["old_price" := VFloat old]> dead_stock_product)))).
Proof.
  split; [exact standard_reachable|].
  apply (tier_selection standard_engine dead_stock_product dead_stock_sales).
  exact standard_reachable.
Defined.

Lemma absent_sku_sold_nothing_witness :
  product_row "B2" "10.00" "9.00" "300" !! "sku" = Some (Some "B2") /\
  (∅ : gmap (option string) (gmap string (option string))) !! Some "B2" = None /\
  quantity_sold dead_stock_sales = Ok 0 /\
  process_row standard_engine ∅ (product_row "B2" "10.00" "9.00" "300")
  = process_product standard_engine dead_stock_product dead_stock_sales.
Proof.
  assert (product_row "B2" "10.00" "9.00" "300" !! "sku" = Some (Some "B2")) as H1
    by (vm_compute; reflexivity).
  assert ((∅ : gmap (option string) (gmap string (option string))) !! Some "B2" = None) as H2
    by (vm_compute; reflexivity).
  assert (quantity_sold dead_stock_sales = Ok 0) as H3 by (vm_compute; reflexivity).
  split; [exact H1|]. split; [exact H2|]. split; [exact H3|].
  destruct (absent_sku_sold_nothing standard_engine ∅ _ _ _ H1 H2 H3) as (E1 & _ & E2 & _).
  rewrite E1. exact E2.
Defined.

Lemma floor_before_rounding_witness :
  let result := <["new_price" := VFloat (cents 1080)]>
                  (<["old_price" := VFloat (cents 1000)]> dead_stock_product) in
  margin_installed standard_engine /\
  cost_price dead_stock_product = Ok (cents 900) /\
  Float.geb (cents 900) zero = true /\
  current_price dead_stock_product = Ok (cents 1000) /\
  Float.is_nan (cents 1000) = false /\
  process_product standard_engine dead_stock_product dead_stock_sales = Ok result /\
  exists r1 r2 p q,
    phase1 standard_engine dead_stock_product dead_stock_sales = Ok r1 /\
    r1 !! "new_price" = Some (VFloat p) /\
    phase2 standard_engine dead_stock_sales r1 = Ok r2 /\
    r2 !! "new_price" = Some (VFloat q) /\
    q = Float.max p (Float.mul (cents 900) lit_1_2) /\
    Float.geb q (Float.mul (cents 900) lit_1_2) = true /\
    result !! "new_price" = Some (VFloat (Float.round q 2)).
Proof.
  cbv zeta.
  split; [exact standard_margin_installed|].
  do 5 (split; [vm_compute; reflexivity|]).
  apply (floor_before_rounding standard_engine dead_stock_product dead_stock_sales _
           (cents 900) (cents 1000));
    [exact standard_margin_installed | vm_compute; reflexivity ..].
Defined.

Lemma floor_never_lowers_witness :
  let r1 := <["new_price" := VFloat (cents 700)]>
              (<["old_price" := VFloat (cents 1000)]> dead_stock_product) in
  margin_installed standard_engine /\
  r1 !! "new_price" = Some (VFloat (cents 700)) /\
  phase2 standard_engine dead_stock_sales r1
  = Ok (<["new_price" := VFloat (Float.max (cents 700) (Float.mul (cents 900) lit_1_2))]> r1).
Proof.
  cbv zeta.
  split; [exact standard_margin_installed|].
  split; [vm_compute; reflexivity|].
  refine (proj2 (floor_never_lowers standard_engine dead_stock_sales _ (cents 700)
                   standard_margin_installed _) (cents 900) _ _).
  - vm_compute. reflexivity.
  - vm_compute. reflexivity.
  - exists (VStr "10.00"). vm_compute. reflexivity.
Defined.

Lemma old_price_frame_witness :
  let result := <["new_price" := VFloat (cents 1080)]>
                  (<["old_price" := VFloat (cents 1000)]> dead_stock_product) in
  process_product standard_engine dead_stock_product dead_stock_sales = Ok result /\
  exists old r1 r2,
    current_price dead_stock_product = Ok old /\
    phase1 standard_engine dead_stock_product dead_stock_sales = Ok r1 /\
    phase2 standard_engine dead_stock_sales r1 = Ok r2 /\
    round_step r2 = Ok result /\
    r1 !! "old_price" = Some (VFloat old) /\
    r2 !! "old_price" = Some (VFloat old) /\
    result !! "old_price" = Some (VFloat old) /\
    (exists q, r2 = <["new_price" := q]> r1) /\
    (exists x, result = <["new_price" := x]> r2) /\
    (forall key, key ≠ "old_price" -> key ≠ "new_price" ->
                 result !! key = dead_stock_product !! key).
Proof.
  cbv zeta.
  split; [vm_compute; reflexivity|].
  apply (old_price_frame standard_engine dead_stock_product dead_stock_sales).
  vm_compute. reflexivity.
Defined.

Lemma missing_file_hash_witness :
  sample_files !! "updated_prices.csv" = None /\
  calculate_file_hash Plain.digest sample_files "updated_prices.csv" = "" /\
  sample_files !! "sales.csv" = Some sales_text /\
  calculate_file_hash Plain.digest sample_files "sales.csv" = Plain.digest sales_text.
Proof.
  assert (sample_files !! "updated_prices.csv" = None) as H1 by (vm_compute; reflexivity).
  assert (sample_files !! "sales.csv" = Some sales_text) as H2 by (vm_compute; reflexivity).
  split; [exact H1|].
  split; [exact (proj1 (missing_file_hash Plain.digest sample_files "updated_prices.csv") H1)|].
  split; [exact H2|].
  exact (proj1 (proj2 (missing_file_hash Plain.digest sample_files "sales.csv")) _ H2).
Defined.

Lemma pass_idempotent_witness :
  let check := process_files Plain.digest Plain.reader Plain.writer in
  output_file sample_handler ≠ products_file sample_handler /\
  output_file sample_handler ≠ sales_file sample_handler /\
  (check sample_handler sample_files).2 = Updated /\
  check (check sample_handler sample_files).1.1 (check sample_handler sample_files).1.2
  = ((check sample_handler sample_files).1.1,
     (check sample_handler sample_files).1.2, Unchanged).
Proof.
  cbv zeta.
  assert (output_file sample_handler ≠ products_file sample_handler) as H1 by discriminate.
  assert (output_file sample_handler ≠ sales_file sample_handler) as H2 by discriminate.
  split; [exact H1|]. split; [exact H2|]. split; [vm_compute; reflexivity|].
  exact (proj2 (proj2 (proj2 (proj2
           (pass_idempotent Plain.digest Plain.reader Plain.writer
              sample_handler sample_files)))) H1 H2).
Defined.

Lemma fingerprints_refreshed_witness :
  let check := process_files Plain.digest Plain.reader Plain.writer in
  (check sample_handler broken_files).2 = Failed (ValueError "int" "many") /\
  products_hash (check sample_handler broken_files).1.1 = Plain.digest broken_products_text /\
  sales_hash (check sample_handler broken_files).1.1 = Plain.digest sales_text /\
  check (check sample_handler broken_files).1.1 broken_files
  = ((check sample_handler broken_files).1.1, broken_files, Unchanged).
Proof.
  cbv zeta.
  split; [vm_compute; reflexivity|].
  split; [vm_compute; reflexivity|].
  split; [vm_compute; reflexivity|].
  apply (fingerprints_refreshed Plain.digest Plain.reader Plain.writer
           sample_handler broken_files); reflexivity.
Defined.


Lemma readable_product_evaluates_witness :
  stock dead_stock_product = Ok 300 /\
  quantity_sold dead_stock_sales = Ok 0 /\
  current_price dead_stock_product = Ok (cents 1000) /\
  cost_price dead_stock_product = Ok (cents 900) /\
  exists p,
    process_product reordered_engine dead_stock_product dead_stock_sales
    = Ok (<["new_price" := VFloat (Float.round p 2)]>
            (<["old_price" := VFloat (cents 1000)]> dead_stock_product)).
Proof.
  assert (stock dead_stock_product = Ok 300) as H1 by (vm_compute; reflexivity).
  assert (quantity_sold dead_stock_sales = Ok 0) as H2 by (vm_compute; reflexivity).
  assert (current_price dead_stock_product = Ok (cents 1000)) as H3
    by (vm_compute; reflexivity).
  assert (cost_price dead_stock_product = Ok (cents 900)) as H4 by (vm_compute; reflexivity).
  split; [exact H1|]. split; [exact H2|]. split; [exact H3|]. split; [exact H4|].
  exact (readable_product_evaluates reordered_engine dead_stock_product dead_stock_sales
           300 0 (cents 1000) (cents 900) H1 H2 H3 H4).
Defined.

Lemma standard_price_witness :
  stock dead_stock_product = Ok 300 /\
  quantity_sold dead_stock_sales = Ok 0 /\
  current_price dead_stock_product = Ok (cents 1000) /\
  cost_price dead_stock_product = Ok (cents 900) /\
  tier_price (cents 1000) 300 0 = Float.mul (cents 1000) lit_0_7 /\
  process_product standard_engine dead_stock_product dead_stock_sales
  = Ok (<["new_price"
          := VFloat (Float.round (Float.max (tier_price (cents 1000) 300 0)
                                            (Float.mul (cents 900) lit_1_2)) 2)]>
          (<["old_price" := VFloat (cents 1000)]> dead_stock_product)).
Proof.
  assert (stock dead_stock_product = Ok 300) as H1 by (vm_compute; reflexivity).
  assert (quantity_sold dead_stock_sales = Ok 0) as H2 by (vm_compute; reflexivity).
  assert (current_price dead_stock_product = Ok (cents 1000)) as H3
    by (vm_compute; reflexivity).
  assert (cost_price dead_stock_product = Ok (cents 900)) as H4 by (vm_compute; reflexivity).
  split; [exact H1|]. split; [exact H2|]. split; [exact H3|]. split; [exact H4|].
  split; [reflexivity|].
  exact (standard_price dead_stock_product dead_stock_sales 300 0 (cents 1000) (cents 900)
           H1 H2 H3 H4).
Defined.

Lemma mid_stock_ignores_sales_witness :
  stock mid_stock_product = Ok 50 /\
  20 <= 50 <= 100 /\
  current_price mid_stock_product = Ok (cents 1000) /\
  cost_price mid_stock_product = Ok (cents 900) /\
  quantity_sold unreadable_sales = Raise (ValueError "int" "n/a") /\
  process_product standard_engine mid_stock_product unreadable_sales
  = Ok (<["new_price"
          := VFloat (Float.round (Float.max (cents 1000) (Float.mul (cents 900) lit_1_2)) 2)]>
          (<["old_price" := VFloat (cents 1000)]> mid_stock_product)).
Proof.
  assert (stock mid_stock_product = Ok 50) as H1 by (vm_compute; reflexivity).
  assert (20 <= 50 <= 100) as H2 by lia.
  assert (current_price mid_stock_product = Ok (cents 1000)) as H3
    by (vm_compute; reflexivity).
  assert (cost_price mid_stock_product = Ok (cents 900)) as H4 by (vm_compute; reflexivity).
  split; [exact H1|]. split; [exact H2|]. split; [exact H3|]. split; [exact H4|].
  split; [vm_compute; reflexivity|].
  exact (mid_stock_ignores_sales mid_stock_product unreadable_sales 50 (cents 1000)
           (cents 900) H1 H2 H3 H4).
Defined.

Lemma dead_stock_needs_priority_witness :
  let overstock := {| class_of := OverstockedInventory; priority := 2 |} in
  let dead := {| class_of := DeadStock; priority := 3 |} in
  let pre := [ {| class_of := LowStockHighDemand; priority := 1 |}; overstock ] in
  rules reordered_engine = pre ++ dead :: [ {| class_of := MinimumProfit; priority := 4 |} ] /\
  should_apply dead dead_stock_product dead_stock_sales = Ok true /\
  (Forall (passes_over dead_stock_product dead_stock_sales) pre ->
   ~ fires dead_stock_product dead_stock_sales dead) /\
  phase1 reordered_engine dead_stock_product dead_stock_sales
  = Ok (<["new_price" := VFloat (Float.mul (cents 1000) lit_0_9)]>
          (<["old_price" := VFloat (cents 1000)]> dead_stock_product)).
Proof.
  cbv zeta.
  assert (rules reordered_engine
          = [ {| class_of := LowStockHighDemand; priority := 1 |};
              {| class_of := OverstockedInventory; priority := 2 |} ]
            ++ {| class_of := DeadStock; priority := 3 |}
            :: [ {| class_of := MinimumProfit; priority := 4 |} ]) as Hrules
    by reflexivity.
  split; [exact Hrules|]. split; [vm_compute; reflexivity|].
  split; [|vm_compute; reflexivity].
  refine (proj2 (proj2 (dead_stock_needs_priority reordered_engine dead_stock_product
                          dead_stock_sales)) _ _ _
            {| class_of := OverstockedInventory; priority := 2 |} Hrules _ _ _).
  - reflexivity.
  - apply elem_of_cons. right. apply elem_of_cons. left. reflexivity.
  - reflexivity.
Defined.

Lemma other_columns_ignored_witness :
  same_inputs dead_stock_product relabelled_product /\
  process_product standard_engine dead_stock_product dead_stock_sales
  = Ok (<["new_price" := VFloat (cents 1080)]>
          (<["old_price" := VFloat (cents 1000)]> dead_stock_product)) /\
  exists old x,
    <["new_price" := VFloat (cents 1080)]>
      (<["old_price" := VFloat (cents 1000)]> dead_stock_product)
    = <["new_price" := VFloat x]> (<["old_price" := VFloat old]> dead_stock_product) /\
    process_product standard_engine relabelled_product dead_stock_sales
    = Ok (<["new_price" := VFloat x]> (<["old_price" := VFloat old]> relabelled_product)).
Proof.
  assert (same_inputs dead_stock_product relabelled_product) as H1
    by (repeat split; vm_compute; reflexivity).
  assert (process_product standard_engine dead_stock_product dead_stock_sales
          = Ok (<["new_price" := VFloat (cents 1080)]>
                  (<["old_price" := VFloat (cents 1000)]> dead_stock_product))) as H2
    by (vm_compute; reflexivity).
  split; [exact H1|]. split; [exact H2|].
  exact (proj1 (other_columns_ignored standard_engine dead_stock_product relabelled_product
                  dead_stock_sales H1) _ H2).
Defined.

Lemma without_margin_rule_witness :
  phase1 standard_engine dead_stock_product dead_stock_sales
  = Ok (<["new_price" := VFloat (cents 700)]>
          (<["old_price" := VFloat (cents 1000)]> dead_stock_product)) /\
  process_product (remove_rule standard_engine MinimumProfit)
    dead_stock_product dead_stock_sales
  = Ok (<["new_price" := VFloat (Float.round (cents 700) 2)]>
          (<["old_price" := VFloat (cents 1000)]> dead_stock_product)).
Proof.
  assert (current_price dead_stock_product = Ok (cents 1000)) as H1
    by (vm_compute; reflexivity).
  assert (phase1 standard_engine dead_stock_product dead_stock_sales
          = Ok (<["new_price" := VFloat (cents 700)]>
                  (<["old_price" := VFloat (cents 1000)]> dead_stock_product))) as H2
    by (vm_compute; reflexivity).
  split; [exact H2|].
  exact (proj2 (proj2 (without_margin_rule standard_engine dead_stock_product
                         dead_stock_sales)) _ _ H1 H2).
Defined.

Lemma remove_rule_add_rule_witness :
  let dead := {| class_of := DeadStock; priority := 7 |} in
  ascending (rules standard_engine) /\
  remove_rule (add_rule standard_engine dead) DeadStock
  = remove_rule standard_engine DeadStock /\
  remove_rule (add_rule standard_engine dead) MinimumProfit
  = add_rule (remove_rule standard_engine MinimumProfit) dead.
Proof.
  cbv zeta.
  assert (ascending (rules standard_engine)) as H
    by (apply reachable_ascending, standard_reachable).
  split; [exact H|]. split.
  - exact (proj1 (remove_rule_add_rule standard_engine
                    {| class_of := DeadStock; priority := 7 |} DeadStock H) eq_refl).
  - refine (proj1 (proj2 (remove_rule_add_rule standard_engine
                            {| class_of := DeadStock; priority := 7 |} MinimumProfit H)) _).
    discriminate.
Defined.

Lemma add_rules_any_order_witness :
  standard_rules_reversed ≡ₚ rules standard_engine /\
  add_rules new_engine standard_rules_reversed = add_rules new_engine (rules standard_engine) /\
  rules (add_rules new_engine standard_rules_reversed) = rules standard_engine.
Proof.
  assert (standard_rules_reversed ≡ₚ rules standard_engine) as H1.
  { rewrite standard_rules. unfold standard_rules_reversed.
    change (reverse (rules standard_engine) ≡ₚ rules standard_engine).
    apply reverse_Permutation. }
  assert (forall r1 r2, r1 ∈ standard_rules_reversed -> r2 ∈ standard_rules_reversed ->
                        priority r1 = priority r2 -> r1 = r2) as H2.
  { unfold standard_rules_reversed. intros r1 r2 Hr1 Hr2.
    rewrite !elem_of_cons, elem_of_nil in Hr1, Hr2.
    destruct Hr1 as [->|[->|[->|[->|[]]]]], Hr2 as [->|[->|[->|[->|[]]]]];
      simpl; intros; reflexivity || discriminate. }
  split; [exact H1|].
  split; [exact (proj1 (add_rules_any_order _ _ H1 H2))|].
  reflexivity.
Defined.

Lemma margin_priority_irrelevant_witness :
  let first := {| class_of := MinimumProfit; priority := 0 |} in
  let tiers := remove_rule standard_engine MinimumProfit in
  class_of first = MinimumProfit /\
  ascending (rules tiers) /\
  head (rules (add_rule tiers first)) = Some first /\
  phase1 (add_rule tiers first) dead_stock_product dead_stock_sales
  = phase1 tiers dead_stock_product dead_stock_sales.
Proof.
  cbv zeta.
  assert (ascending (rules (remove_rule standard_engine MinimumProfit))) as H
    by (apply reachable_ascending, reachable_remove, standard_reachable).
  split; [reflexivity|]. split; [exact H|]. split; [reflexivity|].
  exact (proj1 (margin_priority_irrelevant (remove_rule standard_engine MinimumProfit)
                  {| class_of := MinimumProfit; priority := 0 |}
                  dead_stock_product dead_stock_sales eq_refl H)).
Defined.

Lemma sales_index_last_row_wins_witness :
  let files := <["sales.csv" := duplicate_sales_text]> sample_files in
  files !! "sales.csv" = Some duplicate_sales_text /\
  Forall (fun row => is_Some (row !! "sku")) (Plain.reader duplicate_sales_text) /\
  last (filter (fun row => row !! "sku" = Some (Some "A1")) (Plain.reader duplicate_sales_text))
  = Some (sales_row "A1" "5") /\
  exists sales_data,
    load_sales_data Plain.reader files "sales.csv" = Ok sales_data /\
    forall sku,
      sales_data !! sku
      = last (filter (fun row => row !! "sku" = Some sku) (Plain.reader duplicate_sales_text)).
Proof.
  cbv zeta.
  assert ((<["sales.csv" := duplicate_sales_text]> sample_files) !! "sales.csv"
          = Some duplicate_sales_text) as H1 by apply lookup_insert_eq.
  assert (Forall (fun row => is_Some (row !! "sku")) (Plain.reader duplicate_sales_text)) as H2.
  { change (Plain.reader duplicate_sales_text)
      with [sales_row "A1" "40"; sales_row "B2" "7"; sales_row "A1" "5"].
    repeat constructor; eexists; vm_compute; reflexivity. }
  split; [exact H1|]. split; [exact H2|]. split; [vm_compute; reflexivity|].
  exact (proj2 (proj2 (sales_index_last_row_wins Plain.reader
                         (<["sales.csv" := duplicate_sales_text]> sample_files) "sales.csv"))
           _ H1 H2).
Defined.

Lemma deleted_table_empties_output_witness :
  output_file settled_handler ≠ sales_file settled_handler /\
  output_file settled_handler ≠ products_file settled_handler /\
  files_without_sales !! sales_file settled_handler = None /\
  sales_hash settled_handler ≠ "" /\
  process_files Plain.digest Plain.reader Plain.writer settled_handler files_without_sales
  = (set_hashes settled_handler
       (calculate_file_hash Plain.digest files_without_sales (products_file settled_handler))
       "",
     <[output_file settled_handler := Plain.writer fieldnames []]> files_without_sales,
     Failed (FileNotFoundError (sales_file settled_handler))).
Proof.
  assert (output_file settled_handler ≠ sales_file settled_handler) as H1 by discriminate.
  assert (output_file settled_handler ≠ products_file settled_handler) as H2 by discriminate.
  assert (files_without_sales !! sales_file settled_handler = None) as H3
    by (vm_compute; reflexivity).
  assert (sales_hash settled_handler ≠ "") as H4 by (vm_compute; discriminate).
  split; [exact H1|]. split; [exact H2|]. split; [exact H3|]. split; [exact H4|].
  exact (proj1 (deleted_table_empties_output Plain.digest Plain.reader Plain.writer
                  settled_handler files_without_sales H1 H2) H3 H4).
Defined.

Lemma complete_pass_witness :
  output_file sample_handler ≠ products_file sample_handler /\
  output_file sample_handler ≠ sales_file sample_handler /\
  load_sales_data Plain.reader sample_files (sales_file sample_handler) = Ok sample_index /\
  sample_files !! products_file sample_handler = Some products_text /\
  (run_pass Plain.reader Plain.writer sample_handler sample_files).2 = None /\
  Forall (fun row => is_Ok (process_row (pricing_engine sample_handler) sample_index row))
         (Plain.reader products_text).
Proof.
  assert (output_file sample_handler ≠ products_file sample_handler) as H1 by discriminate.
  assert (output_file sample_handler ≠ sales_file sample_handler) as H2 by discriminate.
  assert (load_sales_data Plain.reader sample_files (sales_file sample_handler)
          = Ok sample_index) as H3 by (vm_compute; reflexivity).
  assert (sample_files !! products_file sample_handler = Some products_text) as H4
    by (vm_compute; reflexivity).
  assert ((run_pass Plain.reader Plain.writer sample_handler sample_files).2 = None) as H5
    by (vm_compute; reflexivity).
  split; [exact H1|]. split; [exact H2|]. split; [exact H3|]. split; [exact H4|].
  split; [exact H5|].
  exact (proj1 (proj2 (complete_pass Plain.reader Plain.writer sample_handler sample_files
                         sample_index products_text H1 H2 H3 H4)) H5).
Defined.

Lemma on_modified_settles_witness :
  let check := process_files Plain.digest Plain.reader Plain.writer in
  let written := {| is_directory := false; src_path := "./products.csv" |} in
  output_file sample_handler ≠ products_file sample_handler /\
  output_file sample_handler ≠ sales_file sample_handler /\
  endswith (src_path written) (products_file sample_handler) = true /\
  (check sample_handler sample_files).2 = Updated /\
  on_modified Plain.digest Plain.reader Plain.writer
    (check sample_handler sample_files).1.1 written (check sample_handler sample_files).1.2
  = ((check sample_handler sample_files).1.1, (check sample_handler sample_files).1.2,
     Unchanged).
Proof.
  cbv zeta.
  assert (output_file sample_handler ≠ products_file sample_handler) as H1 by discriminate.
  assert (output_file sample_handler ≠ sales_file sample_handler) as H2 by discriminate.
  split; [exact H1|]. split; [exact H2|]. split; [vm_compute; reflexivity|].
  split; [vm_compute; reflexivity|].
  exact (proj1 (on_modified_settles Plain.digest Plain.reader Plain.writer sample_handler
                  {| is_directory := false; src_path := "./products.csv" |} sample_files)
           H1 H2).
Defined.

Lemma margin_rule_reads_witness :
  cost_price priced_result = Ok (cents 900) /\
  current_price priced_result = Raise (ValueError "float" "n/a") /\
  MinimumProfitRule.apply priced_result dead_stock_sales
  = Ok (Float.max (cents 700) (Float.mul (cents 900) lit_1_2)) /\
  cost_price result_without_current_price = Ok (cents 900) /\
  result_without_current_price !! "new_price" = Some (VFloat (cents 700)) /\
  MinimumProfitRule.apply result_without_current_price dead_stock_sales
  = Raise (KeyError "current_price").
Proof.
  assert (cost_price priced_result = Ok (cents 900)) as H1 by (vm_compute; reflexivity).
  assert (cost_price result_without_current_price = Ok (cents 900)) as H2
    by (vm_compute; reflexivity).
  split; [exact H1|]. split; [vm_compute; reflexivity|].
  split.
  { refine (proj1 (margin_rule_reads priced_result dead_stock_sales (cents 900) H1)
              (VFloat (cents 700)) (cents 700) _ _ _).
    - vm_compute. reflexivity.
    - reflexivity.
    - eexists. vm_compute. reflexivity. }
  split; [exact H2|]. split; [vm_compute; reflexivity|].
  refine (proj2 (proj2 (margin_rule_reads result_without_current_price dead_stock_sales
                          (cents 900) H2)) _).
  vm_compute. reflexivity.
Defined.

Lemma unreadable_quantity_raises_witness :
  stock dead_stock_product = Ok 300 /\
  (300 < 20 \/ 100 < 300) /\
  current_price dead_stock_product = Ok (cents 1000) /\
  quantity_sold unreadable_sales = Raise (ValueError "int" "n/a") /\
  process_product standard_engine dead_stock_product unreadable_sales
  = Raise (ValueError "int" "n/a").
Proof.
  assert (stock dead_stock_product = Ok 300) as H1 by (vm_compute; reflexivity).
  assert (300 < 20 \/ 100 < 300) as H2 by (right; lia).
  assert (current_price dead_stock_product = Ok (cents 1000)) as H3
    by (vm_compute; reflexivity).
  assert (quantity_sold unreadable_sales = Raise (ValueError "int" "n/a")) as H4
    by (vm_compute; reflexivity).
  split; [exact H1|]. split; [exact H2|]. split; [exact H3|]. split; [exact H4|].
  exact (unreadable_quantity_raises dead_stock_product unreadable_sales 300 (cents 1000)
           (ValueError "int" "n/a") H1 H2 H3 H4).
Defined.
